(** * The marketplace client of vscode-marketplace-downloader

    A shallow embedding of [src/utils/marketplaceApi.ts] (with the
    declarations of [src/utils/types.ts]) and the properties of its
    five exported operations.

    JavaScript strings are modelled as [string]; a function that can
    throw, log or reach the network is a computation in the small monad
    [Js] below: it yields a completion (a value or a thrown error)
    together with the events it caused, in order.

    Further sections cover the callers of the client and their helpers:
    the colour helper [adjustColorBrightness], the background worker's
    [handleMessage], the click handler of the content script and the
    statistics formatting of the popup. *)

From Stdlib Require Import Bool List String Ascii ZArith Lia.
Import ListNotations.
Local Open Scope string_scope.
Local Open Scope list_scope.

(** ** Data model: [types.ts] *)

Record ExtensionFile := {
  assetType : string;
  source : string
}.

Record ExtensionProperty := {
  key : string;
  value : string
}.

Record ExtensionVersion := {
  version : string;
  version_lastUpdated : string;
  files : list ExtensionFile;
  properties : option (list ExtensionProperty)
}.

Record Publisher := {
  publisherId : string;
  publisherName : string;
  publisher_displayName : string
}.

(** The fields of [VSCodeExtension] that hold text or versions.  The
    client reads [publisher], [extensionName] and [versions] only; the
    numeric [statistics] and [flags] are never looked at and are left
    out.  The interface declares [versions] as an array, but the record
    is a JSON value cast from [any] and the client guards against the
    field being missing ([!extension.versions]), so the model lets it
    be absent. *)
Record VSCodeExtension := {
  extensionId : string;
  extensionName : string;
  displayName : string;
  publisher : Publisher;
  versions : option (list ExtensionVersion);
  shortDescription : string;
  description : string;
  categories : list string;
  tags : list string;
  lastUpdated : string;
  publishedDate : string;
  releaseDate : string
}.

Record DownloadUrlInfo := {
  downloadUrl : string;
  dl_version : string;
  fileName : string
}.

(** [EXTENSION_ASSET_TYPES] *)
Definition EXTENSION_ASSET_TYPES_VSIX : string :=
  "Microsoft.VisualStudio.Services.VSIXPackage".
Definition EXTENSION_ASSET_TYPES_MANIFEST : string :=
  "Microsoft.VisualStudio.Code.Manifest".
Definition EXTENSION_ASSET_TYPES_DETAILS : string :=
  "Microsoft.VisualStudio.Services.Content.Details".
Definition EXTENSION_ASSET_TYPES_LICENSE : string :=
  "Microsoft.VisualStudio.Services.Content.License".
Definition EXTENSION_ASSET_TYPES_ICON : string :=
  "Microsoft.VisualStudio.Services.Icons.Default".

(** ** The platform: errors, requests, responses, URLs *)

(** Values a JavaScript operation can throw here. *)
Inductive Thrown :=
| TypeError (msg : string)
| SyntaxError (msg : string)
| NetworkFailure (msg : string).

Inductive Completion (A : Type) :=
| Normal (a : A)
| Abrupt (e : Thrown).
Arguments Normal {A} a.
Arguments Abrupt {A} e.

(** The object literal handed to [JSON.stringify]; the request body is
    its serialisation. *)
#[local] Unset Elimination Schemes.
Inductive json :=
| JNum (n : Z)
| JStr (s : string)
| JArr (items : list json)
| JObj (fields : list (string * json)).
#[local] Set Elimination Schemes.

Inductive Method := GET | POST.

Record Request := {
  req_url : string;
  req_method : Method;
  req_headers : list (string * string);
  req_body : option json
}.

(** The shape [fetchExtensionInfo] expects of the response body:
    [data.results?.[0]?.extensions], every level of which may be
    missing. *)
Record QueryResult := {
  extensions : option (list VSCodeExtension)
}.

Record QueryResponse := {
  results : option (list QueryResult)
}.

Definition Blob := list Byte.byte.

(** A response: its [ok] flag and [statusText], what [json()] settles
    to ([None] is the JSON value [null]) and what [blob()] settles
    to. *)
Record Response := {
  ok : bool;
  statusText : string;
  response_json : Completion (option QueryResponse);
  response_blob : Completion Blob
}.

(** What [fetch] settles to: a rejection (network error) or a
    response. *)
Inductive FetchResult :=
| FetchRejected (e : Thrown)
| FetchResponse (r : Response).

(** The parts of a parsed [URL] object the client reads.
    [searchParams] lists the decoded name/value pairs of the query in
    order. *)
Record URL := {
  hostname : string;
  pathname : string;
  searchParams : list (string * string)
}.

(** [URLSearchParams.prototype.get]: the value of the first pair with
    that name, [None] for JavaScript's [null]. *)
Fixpoint searchParams_get (name : string) (ps : list (string * string))
  : option string :=
  match ps with
  | [] => None
  | (n, v) :: rest => if String.eqb n name then Some v
                      else searchParams_get name rest
  end.

(** ** Effects *)

Inductive LogArg :=
| LogNothing
| LogString (s : string)
| LogUndefined
| LogThrown (e : Thrown).

Inductive Event :=
| Fetched (req : Request)
| ConsoleError (label : string) (arg : LogArg).

Definition Js (A : Type) : Type := (Completion A * list Event)%type.

Definition ret {A} (a : A) : Js A := (Normal a, []).

Definition throw {A} (e : Thrown) : Js A := (Abrupt e, []).

Definition bind {A B} (m : Js A) (f : A -> Js B) : Js B :=
  match m with
  | (Normal a, t) => let (c, t') := f a in (c, t ++ t')
  | (Abrupt e, t) => (Abrupt e, t)
  end.

(** [try { m } catch (error) { h error }] *)
Definition try_catch {A} (m : Js A) (h : Thrown -> Js A) : Js A :=
  match m with
  | (Normal a, t) => (Normal a, t)
  | (Abrupt e, t) => let (c, t') := h e in (c, t ++ t')
  end.

Definition lift {A} (c : Completion A) : Js A := (c, []).

Definition console_error (label : string) (arg : LogArg) : Js unit :=
  (Normal tt, [ConsoleError label arg]).

Notation "x <- m ;; k" := (bind m (fun x => k))
  (at level 61, m at next level, right associativity).
Notation "m ;;; k" := (bind m (fun _ => k))
  (at level 61, right associativity).

(** What an operation returned, and the requests it issued. *)
Definition outcome {A} (m : Js A) : Completion A := fst m.

Definition events {A} (m : Js A) : list Event := snd m.

Fixpoint requests_in (t : list Event) : list Request :=
  match t with
  | [] => []
  | Fetched r :: rest => r :: requests_in rest
  | ConsoleError _ _ :: rest => requests_in rest
  end.

Definition requests {A} (m : Js A) : list Request := requests_in (events m).

(** ** JavaScript primitives used by the client *)

Definition dot : ascii := "."%char.

(** [s.split(sep)] for a one-character separator: the pieces between
    every occurrence of [sep]; never an empty array. *)
Fixpoint split_on (sep : ascii) (s : string) : list string :=
  match s with
  | EmptyString => [EmptyString]
  | String c rest =>
      if Ascii.eqb c sep then EmptyString :: split_on sep rest
      else match split_on sep rest with
           | piece :: pieces => String c piece :: pieces
           | [] => [String c EmptyString]
           end
  end.

(** [!x] for a destructured array slot: [undefined] and the empty
    string are falsy. *)
Definition falsy (x : option string) : bool :=
  match x with
  | None => true
  | Some s => String.eqb s ""
  end.

(** [Array.prototype.find] *)
Definition array_find {A} (p : A -> bool) (l : list A) : option A :=
  List.find p l.

(** [x === y] between a string and a possibly [undefined] string. *)
Definition strict_eq (x : string) (y : option string) : bool :=
  match y with
  | Some s => String.eqb x s
  | None => false
  end.

Definition log_opt (x : option string) : LogArg :=
  match x with
  | Some s => LogString s
  | None => LogUndefined
  end.

(** ** The client: [marketplaceApi.ts] *)

Definition MARKETPLACE_API_BASE : string :=
  "https://marketplace.visualstudio.com/_apis/public/gallery/extensionquery".

Section Client.

(** The network and the URL parser are the platform's.  [fetch] says
    what a request settles to; [newURL s] is [new URL(s)], [None]
    when the constructor throws its [TypeError]. *)
Variable fetch : Request -> FetchResult.
Variable newURL : string -> option URL.

Definition js_fetch (req : Request) : Js Response :=
  match fetch req with
  | FetchRejected e => (Abrupt e, [Fetched req])
  | FetchResponse r => (Normal r, [Fetched req])
  end.

Definition js_new_URL (url : string) : Js URL :=
  match newURL url with
  | Some u => ret u
  | None => throw (TypeError "Invalid URL")
  end.

Definition fetchExtensionInfo (extensionId : string)
  : Js (option VSCodeExtension) :=
  try_catch
    (let parts := split_on dot extensionId in
     let publisher := nth_error parts 0 in
     let name := nth_error parts 1 in
     if falsy publisher || falsy name then
       console_error
         "Invalid extension ID format. Expected: publisher.extensionName"
         LogNothing ;;;
       ret None
     else
       response <- js_fetch
         {| req_url := MARKETPLACE_API_BASE;
            req_method := POST;
            req_headers :=
              [("Content-Type", "application/json");
               ("Accept", "application/json;api-version=6.0-preview.1")];
            req_body := Some (JObj
              [("filters", JArr [JObj
                  [("criteria", JArr [JObj
                      [("filterType", JNum 7);
                       ("value", JStr extensionId)]]);
                   ("pageNumber", JNum 1);
                   ("pageSize", JNum 1);
                   ("sortBy", JNum 0);
                   ("sortOrder", JNum 0)]]);
               ("assetTypes", JArr []);
               ("flags", JNum 914)]) |} ;;
       if negb (ok response) then
         console_error "Failed to fetch extension info:"
           (LogString (statusText response)) ;;;
         ret None
       else
         data <- lift (response_json response) ;;
         results <- match data with
                    | None =>
                        throw (TypeError
                          "Cannot read properties of null (reading 'results')")
                    | Some d =>
                        ret match results d with
                            | Some (first :: _) => extensions first
                            | Some [] => None
                            | None => None
                            end
                    end ;;
         match results with
         | None | Some [] =>
             console_error "Extension not found:" (LogString extensionId) ;;;
             ret None
         | Some (extension :: _) => ret (Some extension)
         end)
    (fun error =>
       console_error "Error fetching extension info:" (LogThrown error) ;;;
       ret None).

Definition extractExtensionIdFromUrl (url : string) : Js (option string) :=
  try_catch
    (urlObj <- js_new_URL url ;;
     if String.eqb (hostname urlObj) "marketplace.visualstudio.com" then
       let itemName := searchParams_get "itemName" (searchParams urlObj) in
       if negb (falsy itemName) then ret itemName
       else ret None
     else ret None)
    (fun error =>
       console_error "Error extracting extension ID from URL:"
         (LogThrown error) ;;;
       ret None).

Definition getExtensionDownloadUrl
  (extensionId : string) (versionArg : option string)
  : Js (option DownloadUrlInfo) :=
  try_catch
    (extension <- fetchExtensionInfo extensionId ;;
     match extension with
     | None => ret None
     | Some extension =>
         match versions extension with
         | None => ret None
         | Some vs =>
             if (List.length vs =? 0)%nat then ret None
             else
               let targetVersion :=
                 if negb (falsy versionArg)
                 then array_find (fun v => strict_eq (version v) versionArg) vs
                 else nth_error vs 0 in
               match targetVersion with
               | None =>
                   console_error "Version not found:" (log_opt versionArg) ;;;
                   ret None
               | Some targetVersion =>
                   let vsixFile :=
                     array_find
                       (fun file =>
                          String.eqb (assetType file)
                            EXTENSION_ASSET_TYPES_VSIX)
                       (files targetVersion) in
                   match vsixFile with
                   | None =>
                       console_error "VSIX file not found for version:"
                         (LogString (version targetVersion)) ;;;
                       ret None
                   | Some vsixFile =>
                       ret (Some
                         {| downloadUrl := source vsixFile;
                            dl_version := version targetVersion;
                            fileName :=
                              publisherName (publisher extension) ++ "." ++
                              extensionName extension ++ "-" ++
                              version targetVersion ++ ".vsix" |})
                   end
               end
         end
     end)
    (fun error =>
       console_error "Error getting download URL:" (LogThrown error) ;;;
       ret None).

Definition downloadExtensionFile (downloadUrl filename : string)
  : Js (option Blob) :=
  try_catch
    (response <- js_fetch
       {| req_url := downloadUrl; req_method := GET;
          req_headers := []; req_body := None |} ;;
     if negb (ok response) then
       console_error "Failed to download extension:"
         (LogString (statusText response)) ;;;
       ret None
     else
       blob <- lift (response_blob response) ;;
       ret (Some blob))
    (fun error =>
       console_error "Error downloading extension file:"
         (LogThrown error) ;;;
       ret None).

Definition isMarketplaceExtensionPage (url : string) : Js bool :=
  try_catch
    (urlObj <- js_new_URL url ;;
     ret (String.eqb (hostname urlObj) "marketplace.visualstudio.com" &&
          String.eqb (pathname urlObj) "/items"))
    (fun _ => ret false).

End Client.

(** ** Vocabulary of the specification *)

(** The text of an identifier up to its first [.] (all of it when it
    has none), and the text after that first [.] when there is one. *)
Fixpoint before_dot (s : string) : string :=
  match s with
  | EmptyString => EmptyString
  | String c rest => if Ascii.eqb c dot then EmptyString
                     else String c (before_dot rest)
  end.

Fixpoint after_dot (s : string) : option string :=
  match s with
  | EmptyString => None
  | String c rest => if Ascii.eqb c dot then Some rest else after_dot rest
  end.

(** The precondition as the specification words it: split on the first
    [.]; malformed when there is no separator or either half is
    empty. *)
Definition malformed_first_dot (extensionId : string) : bool :=
  String.eqb (before_dot extensionId) "" ||
  match after_dot extensionId with
  | None => true
  | Some name => String.eqb name ""
  end.

(** The precondition in terms of the first two [.]-separated
    components: malformed when there is no separator, or nothing before
    the first [.], or nothing between the first [.] and the next one
    (or the end). *)
Definition malformed_components (extensionId : string) : bool :=
  String.eqb (before_dot extensionId) "" ||
  match after_dot extensionId with
  | None => true
  | Some rest => String.eqb (before_dot rest) ""
  end.

(** An asset that is the installable package. *)
Definition is_package (file : ExtensionFile) : Prop :=
  assetType file = "Microsoft.VisualStudio.Services.VSIXPackage".

(** [FirstWhere P l x]: [x] is the element of [l] at the lowest index
    that satisfies [P]. *)
Inductive FirstWhere {A} (P : A -> Prop) : list A -> A -> Prop :=
| first_here x l : P x -> FirstWhere P (x :: l) x
| first_later y l x : ~ P y -> FirstWhere P l x -> FirstWhere P (y :: l) x.

(** Which version a request selects among the versions of a record:
    the first entry when no version (or the empty string) was
    requested, otherwise the first entry with exactly that version
    string. *)
Inductive Selected : list ExtensionVersion -> option string ->
                     ExtensionVersion -> Prop :=
| selected_latest v rest :
    Selected (v :: rest) None v
| selected_empty v rest :
    Selected (v :: rest) (Some "") v
| selected_explicit vs wanted v :
    wanted <> "" ->
    FirstWhere (fun x => version x = wanted) vs v ->
    Selected vs (Some wanted) v.

(** A record that offers no version at all. *)
Definition no_versions (extension : option VSCodeExtension) : Prop :=
  match extension with
  | None => True
  | Some e => versions e = None \/ versions e = Some []
  end.

(** Transport and data-shape failures of the marketplace query. *)
Inductive QueryFails : FetchResult -> Prop :=
| query_rejected e :
    QueryFails (FetchRejected e)
| query_status r :
    ok r = false -> QueryFails (FetchResponse r)
| query_unparsable r e :
    response_json r = Abrupt e -> QueryFails (FetchResponse r)
| query_null r :
    response_json r = Normal None -> QueryFails (FetchResponse r)
| query_no_results r d :
    response_json r = Normal (Some d) -> results d = None ->
    QueryFails (FetchResponse r)
| query_results_empty r d :
    response_json r = Normal (Some d) -> results d = Some [] ->
    QueryFails (FetchResponse r)
| query_no_extensions r d q rest :
    response_json r = Normal (Some d) -> results d = Some (q :: rest) ->
    extensions q = None -> QueryFails (FetchResponse r)
| query_extensions_empty r d q rest :
    response_json r = Normal (Some d) -> results d = Some (q :: rest) ->
    extensions q = Some [] -> QueryFails (FetchResponse r).

(** Transport failures of the raw download. *)
Inductive DownloadFails : FetchResult -> Prop :=
| download_rejected e :
    DownloadFails (FetchRejected e)
| download_status r :
    ok r = false -> DownloadFails (FetchResponse r)
| download_body_lost r e :
    response_blob r = Abrupt e -> DownloadFails (FetchResponse r).

(** Reading the request body. *)
Fixpoint json_field (name : string) (fields : list (string * json))
  : option json :=
  match fields with
  | [] => None
  | (n, v) :: rest => if String.eqb n name then Some v
                      else json_field name rest
  end.

Definition member (name : string) (j : json) : option json :=
  match j with
  | JObj fields => json_field name fields
  | _ => None
  end.

Definition header (name : string) (req : Request) : option string :=
  option_map snd
    (List.find (fun h => String.eqb (fst h) name) (req_headers req)).

(** ** Test doubles

    Stand-ins for the marketplace and for the URL parser, in the manner
    of the mocks of [test.js]; the examples below run the client
    against them. *)

Definition asset (tag url : string) : ExtensionFile :=
  {| assetType := tag; source := url |}.

Definition release (v : string) (fs : list ExtensionFile) : ExtensionVersion :=
  {| version := v; version_lastUpdated := "2024-01-01T00:00:00Z";
     files := fs; properties := None |}.

Definition record_of (pub name : string)
  (vs : option (list ExtensionVersion)) : VSCodeExtension :=
  {| extensionId := "00000000-0000-0000-0000-000000000000";
     extensionName := name;
     displayName := name;
     publisher := {| publisherId := "11111111-1111-1111-1111-111111111111";
                     publisherName := pub;
                     publisher_displayName := pub |};
     versions := vs;
     shortDescription := "";
     description := "";
     categories := [];
     tags := [];
     lastUpdated := "2024-01-01T00:00:00Z";
     publishedDate := "2024-01-01T00:00:00Z";
     releaseDate := "2024-01-01T00:00:00Z" |}.

(** A marketplace that answers every query with the one record. *)
Definition serving (extension : VSCodeExtension) (_ : Request) : FetchResult :=
  FetchResponse
    {| ok := true; statusText := "OK";
       response_json :=
         Normal (Some {| results :=
                           Some [{| extensions := Some [extension] |}] |});
       response_blob := Normal [] |}.

(** No network. *)
Definition offline (_ : Request) : FetchResult :=
  FetchRejected (NetworkFailure "Failed to fetch").

(** A server that answers every request with status 500. *)
Definition failing (_ : Request) : FetchResult :=
  FetchResponse
    {| ok := false; statusText := "Internal Server Error";
       response_json := Abrupt (SyntaxError "Unexpected end of JSON input");
       response_blob := Normal [] |}.

(** The record of the specification's example: versions 2.0.0 and
    1.0.0, most recent first, each with a package asset. *)
Definition two_versions : VSCodeExtension :=
  record_of "publisher" "name"
    (Some [release "2.0.0"
             [asset EXTENSION_ASSET_TYPES_MANIFEST "https://cdn.example/2.0.0/manifest";
              asset EXTENSION_ASSET_TYPES_VSIX "https://cdn.example/2.0.0/vsix"];
           release "1.0.0"
             [asset EXTENSION_ASSET_TYPES_VSIX "https://cdn.example/1.0.0/vsix"]]).

Definition acme_tool : VSCodeExtension :=
  record_of "acme" "tool"
    (Some [release "1.2.3"
             [asset EXTENSION_ASSET_TYPES_VSIX "https://cdn.example/acme/tool/1.2.3"]]).

(** A version that lists the package twice, and one that has none. *)
Definition twice_packaged : VSCodeExtension :=
  record_of "acme" "twice"
    (Some [release "3.0.0"
             [asset EXTENSION_ASSET_TYPES_ICON "https://cdn.example/icon";
              asset EXTENSION_ASSET_TYPES_VSIX "https://cdn.example/first";
              asset EXTENSION_ASSET_TYPES_VSIX "https://cdn.example/second"]]).

Definition unpackaged : VSCodeExtension :=
  record_of "acme" "bare"
    (Some [release "0.1.0"
             [asset EXTENSION_ASSET_TYPES_MANIFEST "https://cdn.example/manifest"]]).

(** What [new URL] yields on the addresses used in the examples; the
    table answers no other string. *)
Definition sample_newURL (s : string) : option URL :=
  let marketplace path query :=
    Some {| hostname := "marketplace.visualstudio.com";
            pathname := path; searchParams := query |} in
  if String.eqb s "https://marketplace.visualstudio.com/items?itemName=publisher.extensionName"
  then marketplace "/items" [("itemName", "publisher.extensionName")]
  else if String.eqb s "https://marketplace.visualstudio.com/items?itemName="
  then marketplace "/items" [("itemName", "")]
  else if String.eqb s "https://marketplace.visualstudio.com/items"
  then marketplace "/items" []
  else if String.eqb s "https://marketplace.visualstudio.com/"
  then marketplace "/" []
  else if String.eqb s "https://www.google.com"
  then Some {| hostname := "www.google.com"; pathname := "/";
               searchParams := [] |}
  else if String.eqb s "https://github.com/items?itemName=publisher.extensionName"
  then Some {| hostname := "github.com"; pathname := "/items";
               searchParams := [("itemName", "publisher.extensionName")] |}
  else None.

(** ** Pure readings of the operations

    What each operation computes once the effects are set aside; the
    lemmas of the next section show that the operations agree with
    them. *)

(** The one request [fetchExtensionInfo] sends for an identifier. *)
Definition marketplace_query (extensionId : string) : Request :=
  {| req_url := MARKETPLACE_API_BASE;
     req_method := POST;
     req_headers :=
       [("Content-Type", "application/json");
        ("Accept", "application/json;api-version=6.0-preview.1")];
     req_body := Some (JObj
       [("filters", JArr [JObj
           [("criteria", JArr [JObj
               [("filterType", JNum 7); ("value", JStr extensionId)]]);
            ("pageNumber", JNum 1);
            ("pageSize", JNum 1);
            ("sortBy", JNum 0);
            ("sortOrder", JNum 0)]]);
        ("assetTypes", JArr []);
        ("flags", JNum 914)]) |}.

(** The record a settled query carries, if any. *)
Definition answer (r : FetchResult) : option VSCodeExtension :=
  match r with
  | FetchRejected _ => None
  | FetchResponse r =>
      if ok r then
        match response_json r with
        | Normal (Some d) =>
            match results d with
            | Some (q :: _) =>
                match extensions q with
                | Some (e :: _) => Some e
                | _ => None
                end
            | _ => None
            end
        | _ => None
        end
      else None
  end.

(** The version picked by [getExtensionDownloadUrl]. *)
Definition select (vs : list ExtensionVersion) (versionArg : option string)
  : option ExtensionVersion :=
  if negb (falsy versionArg)
  then List.find (fun v => strict_eq (version v) versionArg) vs
  else nth_error vs 0.

Definition package_of (v : ExtensionVersion) : option ExtensionFile :=
  List.find (fun file => String.eqb (assetType file) EXTENSION_ASSET_TYPES_VSIX)
    (files v).

(** The descriptor built from a record, a selected version and its
    package asset. *)
Definition descriptor (e : VSCodeExtension) (v : ExtensionVersion)
  (file : ExtensionFile) : DownloadUrlInfo :=
  {| downloadUrl := source file;
     dl_version := version v;
     fileName := publisherName (publisher e) ++ "." ++ extensionName e ++
                 "-" ++ version v ++ ".vsix" |}.

Definition describe (extension : option VSCodeExtension)
  (versionArg : option string) : option DownloadUrlInfo :=
  match extension with
  | None => None
  | Some e =>
      match versions e with
      | None => None
      | Some vs =>
          match select vs versionArg with
          | None => None
          | Some v => option_map (descriptor e v) (package_of v)
          end
      end
  end.

(** The request [downloadExtensionFile] sends, and the bytes a settled
    download carries, if any. *)
Definition download_request (downloadUrl : string) : Request :=
  {| req_url := downloadUrl; req_method := GET;
     req_headers := []; req_body := None |}.

Definition delivered (r : FetchResult) : option Blob :=
  match r with
  | FetchRejected _ => None
  | FetchResponse r =>
      if ok r then
        match response_blob r with
        | Normal b => Some b
        | Abrupt _ => None
        end
      else None
  end.

(** ** Further vocabulary *)


(** A string without any [.]. *)
Fixpoint dotless (s : string) : bool :=
  match s with
  | EmptyString => true
  | String c rest => negb (Ascii.eqb c dot) && dotless rest
  end.

(** ** Colours: [adjustColorBrightness]

    The helper of the content script and of the popup (the two copies
    are identical).  JavaScript numbers that occur here are NaN, an
    infinity or an integer-valued double. *)

Inductive Num :=
| JsNaN
| JsInfinity (negative : bool)
| JsInt (z : Z).

(** The double nearest to an integer (ties to even); integers below
    2^53 in magnitude are doubles themselves, and the rounding
    overflows to an infinity from 2^1024 on. *)
Definition round_double (z : Z) : Num :=
  let a := Z.abs z in
  if (a <? 2 ^ 53)%Z then JsInt z
  else
    let e := (Z.log2 a - 52)%Z in
    let q := Z.shiftr a e in
    let r := (a mod 2 ^ e)%Z in
    let half := (2 ^ (e - 1))%Z in
    let q' := if ((half <? r) || ((r =? half) && Z.odd q))%Z
              then (q + 1)%Z else q in
    let m := Z.shiftl q' e in
    if (m <? 2 ^ 1024)%Z then JsInt (if (z <? 0)%Z then (- m)%Z else m)
    else JsInfinity (z <? 0)%Z.

(** The value of a hexadecimal digit, in either case. *)
Definition hex_value (c : ascii) : option Z :=
  let n := Z.of_nat (nat_of_ascii c) in
  if ((48 <=? n) && (n <=? 57))%Z then Some (n - 48)%Z
  else if ((97 <=? n) && (n <=? 102))%Z then Some (n - 87)%Z
  else if ((65 <=? n) && (n <=? 70))%Z then Some (n - 55)%Z
  else None.

(** White space that [parseInt] skips: tab, line feed, vertical tab,
    form feed, carriage return, space and no-break space (the white
    space characters among the code units below 256). *)
Definition is_space (c : ascii) : bool :=
  let n := nat_of_ascii c in
  ((9 <=? n) && (n <=? 13) || (n =? 32) || (n =? 160))%nat.

Fixpoint trim_start (s : string) : string :=
  match s with
  | String c rest => if is_space c then trim_start rest else s
  | EmptyString => EmptyString
  end.

(** The value of the longest prefix of hexadecimal digits, continuing
    from [acc]; [None] when no digit was read. *)
Fixpoint hex_prefix (s : string) (acc : option Z) : option Z :=
  match s with
  | String c rest =>
      match hex_value c with
      | Some d =>
          hex_prefix rest
            (Some (16 * match acc with Some a => a | None => 0 end + d)%Z)
      | None => acc
      end
  | EmptyString => acc
  end.

(** [parseInt(s, 16)]: leading white space, a sign and a [0x] or [0X]
    prefix are skipped, then the longest run of hexadecimal digits is
    read; NaN when there is none. *)
Definition parseInt16 (s : string) : Num :=
  let s := trim_start s in
  let negative := match s with
                  | String c _ => Ascii.eqb c "-"
                  | EmptyString => false
                  end in
  let s := match s with
           | String c rest =>
               if Ascii.eqb c "-" || Ascii.eqb c "+" then rest else s
           | EmptyString => s
           end in
  let s := match s with
           | String c0 (String c1 rest) =>
               if Ascii.eqb c0 "0" && (Ascii.eqb c1 "x" || Ascii.eqb c1 "X")
               then rest else s
           | _ => s
           end in
  match hex_prefix s None with
  | None => JsNaN
  | Some m => round_double (if negative then (- m)%Z else m)
  end.

(** [ToInt32] and the 32-bit operators. *)
Definition wrap32 (z : Z) : Z :=
  let m := (z mod 2 ^ 32)%Z in
  if (m <? 2 ^ 31)%Z then m else (m - 2 ^ 32)%Z.

Definition ToInt32 (x : Num) : Z :=
  match x with
  | JsInt z => wrap32 z
  | JsNaN | JsInfinity _ => 0%Z
  end.

Definition js_shr (a n : Z) : Z := Z.shiftr (wrap32 a) (Z.land n 31).

Definition js_shl (a n : Z) : Z := wrap32 (Z.shiftl (wrap32 a) (Z.land n 31)).

Definition js_and (a b : Z) : Z := Z.land (wrap32 a) (wrap32 b).

Definition js_or (a b : Z) : Z := Z.lor (wrap32 a) (wrap32 b).

(** [Number.prototype.toString(16)] for an integer. *)
Definition hex_digit (d : Z) : ascii :=
  match d with
  | 0 => "0" | 1 => "1" | 2 => "2" | 3 => "3"
  | 4 => "4" | 5 => "5" | 6 => "6" | 7 => "7"
  | 8 => "8" | 9 => "9" | 10 => "a" | 11 => "b"
  | 12 => "c" | 13 => "d" | 14 => "e" | _ => "f"
  end%Z%char.

Definition hex_digits (n : Z) : string :=
  string_of_list_ascii
    (map (fun i => hex_digit ((n / 16 ^ Z.of_nat i) mod 16)%Z)
       (rev (seq 0 (S (Z.to_nat (Z.log2 n / 4)))))).

Definition toString16 (z : Z) : string :=
  if (z =? 0)%Z then "0"
  else if (z <? 0)%Z then String "-" (hex_digits (- z))
  else hex_digits z.

(** [s.slice(1)] *)
Definition slice1 (s : string) : string :=
  match s with
  | String _ rest => rest
  | EmptyString => EmptyString
  end.

(** [s.replace(c, '')] for a one-character pattern: the first
    occurrence is removed. *)
Fixpoint remove_first (c : ascii) (s : string) : string :=
  match s with
  | String x rest => if Ascii.eqb x c then rest
                     else String x (remove_first c rest)
  | EmptyString => EmptyString
  end.

(** [amount] is an integer, as at every call site (20 and -20). *)
Definition adjustColorBrightness (hexColor : string) (amount : Z) : string :=
  let color := remove_first "#" hexColor in
  let num := ToInt32 (parseInt16 color) in
  let r := Z.min 255 (Z.max 0 (js_shr num 16 + amount)) in
  let g := Z.min 255 (Z.max 0 (js_and (js_shr num 8) 255 + amount)) in
  let b := Z.min 255 (Z.max 0 (js_and num 255 + amount)) in
  String "#"
    (slice1 (toString16
       (js_or (js_or (js_or (js_shl 1 24) (js_shl r 16)) (js_shl g 8)) b))).

(** A channel value kept within a byte, two lowercase digits for a
    byte, and the colour of three channel values. *)
Definition clamp (x : Z) : Z := Z.min 255 (Z.max 0 x).

Definition hex2 (x : Z) : string :=
  String (hex_digit (x / 16)) (String (hex_digit (x mod 16)) "").

Definition colour (r g b : Z) : string :=
  String "#" (hex2 r ++ hex2 g ++ hex2 b).

(** ** The background worker: [background/index.ts] *)

(** The message sent by the page and by the popup; [msg_type] and
    [msg_extensionId] are its [type] and [extensionId]. *)
Record DownloadRequest := {
  msg_type : string;
  msg_extensionId : string
}.

(** The reply; [resp_fileName] and [error] are optional. *)
Record DownloadResponse := {
  success : bool;
  resp_fileName : option string;
  error : option string
}.

(** The options handed to [chrome.downloads.download]. *)
Record DownloadOptions := {
  opt_url : string;
  opt_filename : string;
  saveAs : bool;
  conflictAction : string
}.

(** A value caught by the worker: an [Error] with its message, or
    anything else. *)
Inductive Rejection :=
| RejectError (message : string)
| RejectOther.

(** What [chrome.downloads.download] settles to: a rejection, or a
    download id, [None] for [undefined]. *)
Inductive DownloadResult :=
| DownloadRejected (reason : Rejection)
| DownloadId (id : option Z).

Inductive Settled (A : Type) :=
| Fulfilled (a : A)
| Rejected (reason : Rejection).
Arguments Fulfilled {A} a.
Arguments Rejected {A} reason.

Inductive BgEvent :=
| BgClient (e : Event)
| BgDownload (options : DownloadOptions)
| BgRespond (response : DownloadResponse)
| BgConsoleError (label : string) (reason : Rejection).

Definition Bg (A : Type) : Type := (Settled A * list BgEvent)%type.

Definition bg_ret {A} (a : A) : Bg A := (Fulfilled a, []).

Definition bg_bind {A B} (m : Bg A) (f : A -> Bg B) : Bg B :=
  match m with
  | (Fulfilled a, t) => let (c, t') := f a in (c, t ++ t')
  | (Rejected e, t) => (Rejected e, t)
  end.

Definition bg_try {A} (m : Bg A) (h : Rejection -> Bg A) : Bg A :=
  match m with
  | (Fulfilled a, t) => (Fulfilled a, t)
  | (Rejected e, t) => let (c, t') := h e in (c, t ++ t')
  end.

(** Every value the client can throw is an [Error]. *)
Definition thrown_message (e : Thrown) : string :=
  match e with
  | TypeError msg | SyntaxError msg | NetworkFailure msg => msg
  end.

(** Awaiting a call of the client inside the worker. *)
Definition bg_await {A} (m : Js A) : Bg A :=
  match m with
  | (Normal a, t) => (Fulfilled a, map BgClient t)
  | (Abrupt e, t) => (Rejected (RejectError (thrown_message e)), map BgClient t)
  end.

Definition sendResponse (response : DownloadResponse) : Bg unit :=
  (Fulfilled tt, [BgRespond response]).

Definition bg_console_error (label : string) (reason : Rejection) : Bg unit :=
  (Fulfilled tt, [BgConsoleError label reason]).

(** [if (downloadId)]: [undefined] and 0 are falsy. *)
Definition truthy_id (id : option Z) : bool :=
  match id with
  | Some n => negb (n =? 0)%Z
  | None => false
  end.

Declare Scope bg_scope.
Notation "x <- m ;; k" := (bg_bind m (fun x => k))
  (at level 61, m at next level, right associativity) : bg_scope.
Notation "m ;;; k" := (bg_bind m (fun _ => k))
  (at level 61, right associativity) : bg_scope.

Section Background.

Variable fetch : Request -> FetchResult.
Variable download : DownloadOptions -> DownloadResult.

Local Open Scope bg_scope.

Definition chrome_downloads_download (options : DownloadOptions)
  : Bg (option Z) :=
  match download options with
  | DownloadRejected reason => (Rejected reason, [BgDownload options])
  | DownloadId id => (Fulfilled id, [BgDownload options])
  end.

Definition handleMessage (request : DownloadRequest) : Bg unit :=
  if String.eqb (msg_type request) "DOWNLOAD_EXTENSION" then
    bg_try
      (let extensionId := msg_extensionId request in
       downloadInfo <- bg_await
         (getExtensionDownloadUrl fetch extensionId None) ;;
       match downloadInfo with
       | None =>
           sendResponse {| success := false; resp_fileName := None;
                           error := Some "Failed to get download URL" |}
       | Some downloadInfo =>
           downloadId <- chrome_downloads_download
             {| opt_url := downloadUrl downloadInfo;
                opt_filename := fileName downloadInfo;
                saveAs := true;
                conflictAction := "uniquify" |} ;;
           if truthy_id downloadId then
             sendResponse {| success := true;
                             resp_fileName := Some (fileName downloadInfo);
                             error := None |}
           else
             sendResponse {| success := false; resp_fileName := None;
                             error := Some "Failed to start download" |}
       end)
      (fun error =>
         bg_console_error "Error handling download request:" error ;;;
         sendResponse
           {| success := false; resp_fileName := None;
              error := Some match error with
                            | RejectError message => message
                            | RejectOther => "Unknown error"
                            end |})
  else bg_ret tt.

End Background.

(** The replies, the downloads started and the network requests of a
    run of the worker. *)
Fixpoint responses_in (t : list BgEvent) : list DownloadResponse :=
  match t with
  | [] => []
  | BgRespond r :: rest => r :: responses_in rest
  | _ :: rest => responses_in rest
  end.

Fixpoint downloads_in (t : list BgEvent) : list DownloadOptions :=
  match t with
  | [] => []
  | BgDownload o :: rest => o :: downloads_in rest
  | _ :: rest => downloads_in rest
  end.

Fixpoint client_events_in (t : list BgEvent) : list Event :=
  match t with
  | [] => []
  | BgClient e :: rest => e :: client_events_in rest
  | _ :: rest => client_events_in rest
  end.

(** A download service that accepts every download, one that refuses
    with an error, and one that hands out the id 0. *)
Definition accepting (_ : DownloadOptions) : DownloadResult :=
  DownloadId (Some 1%Z).

Definition refusing (_ : DownloadOptions) : DownloadResult :=
  DownloadRejected (RejectError "Invalid URL").

Definition zero_id (_ : DownloadOptions) : DownloadResult :=
  DownloadId (Some 0%Z).

(** The options the worker builds from a descriptor, and the reply it
    gives for a resolution and a behaviour of the download service. *)
Definition download_options (d : DownloadUrlInfo) : DownloadOptions :=
  {| opt_url := downloadUrl d; opt_filename := fileName d;
     saveAs := true; conflictAction := "uniquify" |}.

Definition failure (message : string) : DownloadResponse :=
  {| success := false; resp_fileName := None; error := Some message |}.

Definition reply (resolved : option DownloadUrlInfo)
  (download : DownloadOptions -> DownloadResult) : DownloadResponse :=
  match resolved with
  | None => failure "Failed to get download URL"
  | Some d =>
      match download (download_options d) with
      | DownloadId id =>
          if truthy_id id
          then {| success := true; resp_fileName := Some (fileName d);
                  error := None |}
          else failure "Failed to start download"
      | DownloadRejected (RejectError message) => failure message
      | DownloadRejected RejectOther => failure "Unknown error"
      end
  end.

(** ** The content script: the download button's click handler

    The three elements the handlers look up by id, each of which may be
    missing from the page, with the properties the handlers write. *)

Record LoadingEl := {
  loading_display : string;
  loading_textContent : string
}.

Record StatusEl := {
  status_display : string;
  status_textContent : string;
  status_className : string
}.

Record ButtonEl := {
  disabled : bool
}.

Record Page := {
  loading : option LoadingEl;
  status : option StatusEl;
  button : option ButtonEl
}.

Definition STORAGE_KEY : string := "vscode-downloader-extension-id".

(** [showLoading(message = 'Loading...')] *)
Definition showLoading (message : option string) (page : Page) : Page :=
  let message := match message with
                 | Some m => m
                 | None => "Loading..."
                 end in
  {| loading := match loading page with
                | Some _ => Some {| loading_display := "block";
                                    loading_textContent := message |}
                | None => None
                end;
     status := match status page with
               | Some s => Some {| status_display := "none";
                                   status_textContent := status_textContent s;
                                   status_className := status_className s |}
               | None => None
               end;
     button := match button page with
               | Some _ => Some {| disabled := true |}
               | None => None
               end |}.

Definition hideLoading (page : Page) : Page :=
  {| loading := match loading page with
                | Some l => Some {| loading_display := "none";
                                    loading_textContent :=
                                      loading_textContent l |}
                | None => None
                end;
     status := status page;
     button := match button page with
               | Some _ => Some {| disabled := false |}
               | None => None
               end |}.

(** [showStatus(message, type)] *)
Definition showStatus (message type : string) (page : Page) : Page :=
  {| loading := loading page;
     status := match status page with
               | Some _ => Some {| status_display := "block";
                                   status_textContent := message;
                                   status_className := type |}
               | None => None
               end;
     button := button page |}.

(** What [chrome.storage.local.get] and [chrome.runtime.sendMessage]
    settle to; a stored value and a reply may be [undefined]. *)
Inductive StorageResult :=
| StorageRejected (reason : Rejection)
| StorageValue (v : option string).

Inductive SendResult :=
| SendRejected (reason : Rejection)
| SendReply (response : option DownloadResponse).

Inductive UiEvent :=
| UiStorageGet (key : string)
| UiSendMessage (request : DownloadRequest)
| UiConsoleError (label : string) (reason : Rejection).

Definition Ui (A : Type) : Type :=
  Page -> (Settled A * Page * list UiEvent)%type.

Definition ui_ret {A} (a : A) : Ui A := fun page => (Fulfilled a, page, []).

Definition ui_bind {A B} (m : Ui A) (f : A -> Ui B) : Ui B :=
  fun page =>
    match m page with
    | (Fulfilled a, page', t) =>
        match f a page' with
        | (c, page'', t') => (c, page'', t ++ t')
        end
    | (Rejected e, page', t) => (Rejected e, page', t)
    end.

Definition ui_try {A} (m : Ui A) (h : Rejection -> Ui A) : Ui A :=
  fun page =>
    match m page with
    | (Fulfilled a, page', t) => (Fulfilled a, page', t)
    | (Rejected e, page', t) =>
        match h e page' with
        | (c, page'', t') => (c, page'', t ++ t')
        end
    end.

Definition ui_throw {A} (e : Rejection) : Ui A :=
  fun page => (Rejected e, page, []).

(** A call of one of the functions that update the page. *)
Definition ui_do (f : Page -> Page) : Ui unit :=
  fun page => (Fulfilled tt, f page, []).

Definition ui_console_error (label : string) (reason : Rejection) : Ui unit :=
  fun page => (Fulfilled tt, page, [UiConsoleError label reason]).

(** An optional string inside a template literal. *)
Definition template (x : option string) : string :=
  match x with
  | Some s => s
  | None => "undefined"
  end.

Declare Scope ui_scope.
Notation "x <- m ;; k" := (ui_bind m (fun x => k))
  (at level 61, m at next level, right associativity) : ui_scope.
Notation "m ;;; k" := (ui_bind m (fun _ => k))
  (at level 61, right associativity) : ui_scope.

Section ContentScript.

Variable storage : string -> StorageResult.
Variable sendMessage : DownloadRequest -> SendResult.

Local Open Scope ui_scope.

Definition chrome_storage_local_get (key : string) : Ui (option string) :=
  fun page =>
    match storage key with
    | StorageRejected reason => (Rejected reason, page, [UiStorageGet key])
    | StorageValue v => (Fulfilled v, page, [UiStorageGet key])
    end.

Definition chrome_runtime_sendMessage (request : DownloadRequest)
  : Ui (option DownloadResponse) :=
  fun page =>
    match sendMessage request with
    | SendRejected reason => (Rejected reason, page, [UiSendMessage request])
    | SendReply response => (Fulfilled response, page, [UiSendMessage request])
    end.

Definition handleDownloadClick : Ui unit :=
  ui_try
    (ui_do (showLoading (Some "Fetching extension info...")) ;;;
     extensionId <- chrome_storage_local_get STORAGE_KEY ;;
     if falsy extensionId then
       ui_do (showStatus "Extension ID not found" "error") ;;;
       ui_do hideLoading
     else
       response <- chrome_runtime_sendMessage
         {| msg_type := "DOWNLOAD_EXTENSION";
            msg_extensionId := match extensionId with
                               | Some id => id
                               | None => ""
                               end |} ;;
       match response with
       | None =>
           ui_throw (RejectError
             "Cannot read properties of undefined (reading 'success')")
       | Some response =>
           if success response then
             ui_do (showStatus
                      ("Download started: " ++
                       template (resp_fileName response)) "success") ;;;
             ui_do hideLoading
           else
             ui_do (showStatus
                      ("Error: " ++ template (error response)) "error") ;;;
             ui_do hideLoading
       end)
    (fun error =>
       ui_console_error "Error handling download:" error ;;;
       ui_do (showStatus "Failed to start download" "error") ;;;
       ui_do hideLoading).

End ContentScript.

(** The messages a run of the click handler sent. *)
Fixpoint messages_in (t : list UiEvent) : list DownloadRequest :=
  match t with
  | [] => []
  | UiSendMessage r :: rest => r :: messages_in rest
  | _ :: rest => messages_in rest
  end.

(** The message channel between the page and the worker: a message is
    answered with what the worker passes to [sendResponse], or with
    [undefined] when the worker does not reply. *)
Definition channel (fetch : Request -> FetchResult)
  (download : DownloadOptions -> DownloadResult)
  (request : DownloadRequest) : SendResult :=
  SendReply (hd_error (responses_in (snd (handleMessage fetch download request)))).

(** A page with the three elements as the script creates them, and a
    store that holds an identifier. *)
Definition injected_page : Page :=
  {| loading := Some {| loading_display := ""; loading_textContent := "" |};
     status := Some {| status_display := ""; status_textContent := "";
                       status_className := "" |};
     button := Some {| disabled := false |} |}.

Definition holding (id : string) (_ : string) : StorageResult :=
  StorageValue (Some id).

(** ** The popup: formatting statistics

    [formatDownloadCount] and [formatRating] of the popup script.  The
    statistics carry JavaScript numbers; their arithmetic and printing
    are the platform's and are parameters here: [ge] is [>=], [divide]
    is [/], [toFixed1] is [toFixed(1)], [toString] is the conversion to
    a string, [number_falsy] tells the numbers that [||] skips (zero and
    NaN), and [literal] gives the number of an integer literal. *)

Section Statistics.

Variable number : Type.
Variable ge : number -> number -> bool.
Variable divide : number -> number -> number.
Variable toFixed1 : number -> string.
Variable toString : number -> string.
Variable number_falsy : number -> bool.
Variable literal : Z -> number.

Record ExtensionStatistic := {
  statisticName : string;
  stat_value : number
}.

Definition formatDownloadCount (statistics : list ExtensionStatistic)
  : string :=
  let downloadStat :=
    array_find (fun s => String.eqb (statisticName s) "install") statistics in
  match downloadStat with
  | None => "N/A"
  | Some downloadStat =>
      let count := stat_value downloadStat in
      if ge count (literal 1000000) then
        toFixed1 (divide count (literal 1000000)) ++ "M"
      else if ge count (literal 1000) then
        toFixed1 (divide count (literal 1000)) ++ "K"
      else toString count
  end.


End Statistics.

Arguments statisticName {number} _.
Arguments stat_value {number} _.

(** ** Lemmas on the primitives *)

Lemma split_on_components (s : string) :
  split_on dot s =
  before_dot s :: match after_dot s with
                  | None => []
                  | Some rest => split_on dot rest
                  end.
Proof.
  induction s as [|c s IH]; simpl; [reflexivity|].
  destruct (Ascii.eqb c dot); [reflexivity|].
  rewrite IH. reflexivity.
Qed.

Lemma precondition_components (extensionId : string) :
  let parts := split_on dot extensionId in
  falsy (nth_error parts 0) || falsy (nth_error parts 1) =
  malformed_components extensionId.
Proof.
  unfold malformed_components; simpl.
  rewrite split_on_components; simpl.
  destruct (after_dot extensionId) as [rest|]; simpl; [|reflexivity].
  rewrite (split_on_components rest). reflexivity.
Qed.

Lemma falsy_false (x : option string) :
  falsy x = false <-> exists s, x = Some s /\ s <> "".
Proof.
  destruct x as [s|]; simpl; split.
  - intros H. exists s. split; [reflexivity|].
    intros ->. discriminate.
  - intros [s' [[= <-] Hne]]. now apply String.eqb_neq.
  - discriminate.
  - intros [s' [[=] _]].
Qed.

Lemma find_FirstWhere {A} (p : A -> bool) (P : A -> Prop) (l : list A) (x : A) :
  (forall y, p y = true <-> P y) ->
  List.find p l = Some x <-> FirstWhere P l x.
Proof.
  intros Hp. induction l as [|y l IH]; simpl.
  - split; [discriminate|]. intros H; inversion H.
  - destruct (p y) eqn:E.
    + split.
      * intros [= ->]. constructor. now apply Hp.
      * intros H. inversion H; subst; [reflexivity|].
        exfalso. match goal with N : ~ P _ |- _ => apply N end. now apply Hp.
    + split.
      * intros H. apply first_later; [|now apply IH].
        intros HP. apply Hp in HP. congruence.
      * intros H. inversion H; subst.
        -- exfalso. match goal with Q : P _ |- _ => apply Hp in Q end. congruence.
        -- now apply IH.
Qed.

Lemma find_none_iff {A} (p : A -> bool) (P : A -> Prop) (l : list A) :
  (forall y, p y = true <-> P y) ->
  List.find p l = None <-> (forall x, In x l -> ~ P x).
Proof.
  intros Hp. induction l as [|y l IH]; simpl.
  - split; [intros _ x []|reflexivity].
  - destruct (p y) eqn:E.
    + split; [discriminate|].
      intros H. exfalso. apply (H y); [now left|now apply Hp].
    + rewrite IH. split.
      * intros H x [<-|Hin]; [|now apply H].
        intros HP. apply Hp in HP. congruence.
      * intros H x Hin. apply H. now right.
Qed.

Lemma FirstWhere_split {A} (P : A -> Prop) (pre post : list A) (x : A) :
  (forall y, In y pre -> ~ P y) -> P x -> FirstWhere P (pre ++ x :: post) x.
Proof.
  induction pre as [|y pre IH]; simpl; intros Hpre Hx.
  - now constructor.
  - apply first_later; [apply Hpre; now left|].
    apply IH; [|assumption]. intros z Hz. apply Hpre. now right.
Qed.

Lemma FirstWhere_unique {A} (P : A -> Prop) (l : list A) (x y : A) :
  FirstWhere P l x -> FirstWhere P l y -> x = y.
Proof.
  induction 1 as [x l Hx|z l x Hz _ IH]; intros H; inversion H; subst;
    try reflexivity; try contradiction.
  now apply IH.
Qed.

Lemma FirstWhere_In {A} (P : A -> Prop) (l : list A) (x : A) :
  FirstWhere P l x -> In x l /\ P x.
Proof.
  induction 1 as [x l Hx|z l x Hz _ [IH1 IH2]]; simpl; auto.
Qed.

Lemma is_package_eqb (file : ExtensionFile) :
  String.eqb (assetType file) EXTENSION_ASSET_TYPES_VSIX = true <->
  is_package file.
Proof. unfold is_package. apply String.eqb_eq. Qed.

(** ** Lemmas on the operations *)

Section ClientFacts.

Variable fetch : Request -> FetchResult.

Lemma fetchExtensionInfo_malformed (extensionId : string) :
  malformed_components extensionId = true ->
  fetchExtensionInfo fetch extensionId =
  (Normal None,
   [ConsoleError
      "Invalid extension ID format. Expected: publisher.extensionName"
      LogNothing]).
Proof.
  intros H. unfold fetchExtensionInfo.
  cbv zeta. rewrite precondition_components, H. reflexivity.
Qed.

Lemma fetchExtensionInfo_wellformed (extensionId : string) :
  malformed_components extensionId = false ->
  exists log,
    fetchExtensionInfo fetch extensionId =
    (Normal (answer (fetch (marketplace_query extensionId))),
     Fetched (marketplace_query extensionId) :: log) /\
    requests_in log = [].
Proof.
  intros H. unfold fetchExtensionInfo.
  cbv zeta. rewrite precondition_components, H.
  fold (marketplace_query extensionId).
  unfold js_fetch, answer.
  destruct (fetch (marketplace_query extensionId)) as [e|r]; simpl.
  - eexists; split; reflexivity.
  - destruct (ok r); simpl; [|eexists; split; reflexivity].
    destruct (response_json r) as [[d|]|e]; simpl;
      try (eexists; split; reflexivity).
    destruct (results d) as [[|q qs]|]; simpl;
      try (eexists; split; reflexivity).
    destruct (extensions q) as [[|x xs]|]; simpl;
      eexists; split; reflexivity.
Qed.

Lemma fetchExtensionInfo_outcome (extensionId : string) :
  outcome (fetchExtensionInfo fetch extensionId) =
  Normal (if malformed_components extensionId then None
          else answer (fetch (marketplace_query extensionId))).
Proof.
  destruct (malformed_components extensionId) eqn:E.
  - now rewrite fetchExtensionInfo_malformed.
  - destruct (fetchExtensionInfo_wellformed extensionId E) as [log [-> _]].
    reflexivity.
Qed.

Lemma fetchExtensionInfo_requests (extensionId : string) :
  requests (fetchExtensionInfo fetch extensionId) =
  if malformed_components extensionId then []
  else [marketplace_query extensionId].
Proof.
  destruct (malformed_components extensionId) eqn:E.
  - now rewrite fetchExtensionInfo_malformed.
  - destruct (fetchExtensionInfo_wellformed extensionId E) as [log [-> Hlog]].
    unfold requests; simpl. now rewrite Hlog.
Qed.

Lemma requests_in_app (t u : list Event) :
  requests_in (t ++ u) = requests_in t ++ requests_in u.
Proof.
  induction t as [|[r|l a] t IH]; simpl; [reflexivity| |assumption].
  now rewrite IH.
Qed.

Lemma getExtensionDownloadUrl_run (extensionId : string)
  (versionArg : option string) :
  exists extension log more,
    fetchExtensionInfo fetch extensionId = (Normal extension, log) /\
    getExtensionDownloadUrl fetch extensionId versionArg =
    (Normal (describe extension versionArg), log ++ more) /\
    requests_in more = [].
Proof.
  unfold getExtensionDownloadUrl.
  pose proof (fetchExtensionInfo_outcome extensionId) as Ho.
  destruct (fetchExtensionInfo fetch extensionId) as [c log].
  unfold outcome in Ho; simpl in Ho. subst c.
  set (x := if malformed_components extensionId then None else _).
  exists x, log. unfold describe, select, package_of, array_find.
  simpl.
  destruct x as [e|]; simpl; [|eexists; repeat split; reflexivity].
  destruct (versions e) as [vs|]; simpl;
    [|eexists; repeat split; reflexivity].
  destruct vs as [|v0 vs]; simpl.
  { destruct (negb (falsy versionArg)); eexists; repeat split; reflexivity. }
  match goal with
  | |- context [match ?sel with Some _ => _ | None => _ end] =>
      destruct sel as [v|]
  end; simpl; [|eexists; repeat split; reflexivity].
  destruct (List.find _ (files v)) as [f|]; simpl;
    eexists; repeat split; reflexivity.
Qed.

Lemma getExtensionDownloadUrl_outcome (extensionId : string)
  (versionArg : option string) (extension : option VSCodeExtension) :
  outcome (fetchExtensionInfo fetch extensionId) = Normal extension ->
  outcome (getExtensionDownloadUrl fetch extensionId versionArg) =
  Normal (describe extension versionArg).
Proof.
  intros H.
  destruct (getExtensionDownloadUrl_run extensionId versionArg)
    as [x [log [more [Hf [Hg _]]]]].
  rewrite Hf in H. unfold outcome in H; simpl in H. injection H as ->.
  now rewrite Hg.
Qed.

Lemma getExtensionDownloadUrl_requests (extensionId : string)
  (versionArg : option string) :
  requests (getExtensionDownloadUrl fetch extensionId versionArg) =
  requests (fetchExtensionInfo fetch extensionId).
Proof.
  destruct (getExtensionDownloadUrl_run extensionId versionArg)
    as [x [log [more [Hf [Hg Hm]]]]].
  rewrite Hf, Hg. unfold requests; simpl.
  now rewrite requests_in_app, Hm, app_nil_r.
Qed.

End ClientFacts.

Lemma select_Selected (vs : list ExtensionVersion) (versionArg : option string)
  (v : ExtensionVersion) :
  select vs versionArg = Some v <-> Selected vs versionArg v.
Proof.
  unfold select. destruct versionArg as [wanted|]; simpl.
  - destruct (String.eqb wanted "") eqn:E; simpl.
    + apply String.eqb_eq in E. subst wanted. split.
      * destruct vs as [|v0 rest]; simpl; [discriminate|].
        intros [= ->]. constructor.
      * intros H. inversion H; subst; [reflexivity|congruence].
    + apply String.eqb_neq in E.
      rewrite (find_FirstWhere _ (fun x => version x = wanted)).
      * split; [now constructor|].
        intros H. inversion H; subst; [congruence|assumption].
      * intros y. apply String.eqb_eq.
  - split.
    + destruct vs as [|v0 rest]; simpl; [discriminate|].
      intros [= ->]. constructor.
    + intros H. inversion H; subst. reflexivity.
Qed.

Lemma select_none (vs : list ExtensionVersion) (versionArg : option string) :
  select vs versionArg = None <-> (forall v, ~ Selected vs versionArg v).
Proof.
  split.
  - intros H v Hs. apply select_Selected in Hs. congruence.
  - intros H. destruct (select vs versionArg) as [v|] eqn:E; [|reflexivity].
    exfalso. apply (H v). now apply select_Selected.
Qed.

Lemma package_of_first (v : ExtensionVersion) (f : ExtensionFile) :
  package_of v = Some f <-> FirstWhere is_package (files v) f.
Proof. apply find_FirstWhere, is_package_eqb. Qed.

Lemma package_of_none (v : ExtensionVersion) :
  package_of v = None <-> (forall f, In f (files v) -> ~ is_package f).
Proof. apply find_none_iff, is_package_eqb. Qed.

Lemma package_of_some (v : ExtensionVersion) :
  (exists f, In f (files v) /\ is_package f) ->
  exists f, package_of v = Some f.
Proof.
  intros [f [Hin Hf]].
  destruct (package_of v) as [g|] eqn:E; [now exists g|].
  exfalso. rewrite package_of_none in E. exact (E f Hin Hf).
Qed.

(** ** Version selection *)

(** C1, as stated, fails: an explicitly requested empty version string
    matches no version of the record, yet the most recent version is
    resolved instead of nothing. *)
Lemma C1_empty_version_counterexample :
  exists vs,
    versions two_versions = Some vs /\
    (forall v, In v vs -> version v <> "") /\
    outcome (fetchExtensionInfo (serving two_versions) "publisher.name") =
      Normal (Some two_versions) /\
    outcome (getExtensionDownloadUrl (serving two_versions) "publisher.name"
               (Some "")) =
      Normal (Some {| downloadUrl := "https://cdn.example/2.0.0/vsix";
                      dl_version := "2.0.0";
                      fileName := "publisher.name-2.0.0.vsix" |}).
Proof.
  eexists. split; [reflexivity|]. split; [|split; reflexivity].
  simpl. intros v [<-|[<-|[]]]; discriminate.
Qed.

(** C1 (amended): resolve-download-descriptor selects the version as
    follows.  If the record is absent, or has no versions sequence or
    an empty one, the result is absent.  If no explicit version was
    requested, or the requested version is the empty string, the
    descriptor's version is that of the first entry (index 0).  If a
    non-empty explicit version was requested, the descriptor's version
    is that of the first VersionRecord whose version string equals it
    exactly, and the result is absent when no VersionRecord matches.
    In each case a descriptor is produced as soon as the selected
    version carries a package asset. *)
Theorem C1_version_selection
  (fetch : Request -> FetchResult) (extensionId : string)
  (versionArg : option string) (extension : option VSCodeExtension) :
  outcome (fetchExtensionInfo fetch extensionId) = Normal extension ->
  let result := outcome (getExtensionDownloadUrl fetch extensionId versionArg) in
  (no_versions extension -> result = Normal None) /\
  (forall e vs wanted,
     extension = Some e -> versions e = Some vs ->
     versionArg = Some wanted -> wanted <> "" ->
     (forall v, In v vs -> version v <> wanted) ->
     result = Normal None) /\
  (forall e vs v,
     extension = Some e -> versions e = Some vs ->
     Selected vs versionArg v ->
     (forall d, result = Normal (Some d) -> dl_version d = version v) /\
     ((exists f, In f (files v) /\ is_package f) ->
      exists d, result = Normal (Some d))).
Proof.
  intros Hf result. subst result.
  rewrite (getExtensionDownloadUrl_outcome fetch _ _ _ Hf).
  split; [|split].
  - destruct extension as [e|]; simpl; [|reflexivity].
    intros [-> | ->]; [reflexivity|].
    replace (select [] versionArg) with (@None ExtensionVersion);
      [reflexivity|].
    unfold select. now destruct (negb (falsy versionArg)).
  - intros e vs wanted -> Hvs -> Hne Hnone. simpl. rewrite Hvs.
    replace (select vs (Some wanted)) with (@None ExtensionVersion);
      [reflexivity|].
    symmetry. apply select_none. intros v Hs.
    inversion Hs; subst; [congruence|].
    match goal with
    | H : FirstWhere _ _ _ |- _ => apply FirstWhere_In in H; destruct H as [Hin Hv]
    end.
    exact (Hnone v Hin Hv).
  - intros e vs v -> Hvs Hs. simpl. rewrite Hvs.
    apply select_Selected in Hs. rewrite Hs. split.
    + intros d. destruct (package_of v) as [f|]; simpl; [|discriminate].
      intros [= <-]. reflexivity.
    + intros Hp. destruct (package_of_some v Hp) as [f ->]. simpl.
      eexists; reflexivity.
Qed.

Lemma C1_version_selection_witness :
  outcome (fetchExtensionInfo (serving two_versions) "publisher.name") =
    Normal (Some two_versions) /\
  (forall d,
     outcome (getExtensionDownloadUrl (serving two_versions) "publisher.name"
                (Some "1.0.0")) = Normal (Some d) ->
     dl_version d = "1.0.0") /\
  outcome (getExtensionDownloadUrl (serving two_versions) "publisher.name"
             (Some "9.9.9")) = Normal None.
Proof.
  split; [reflexivity|]. split.
  - refine (proj1 (proj2 (proj2
      (C1_version_selection (serving two_versions) "publisher.name"
         (Some "1.0.0") (Some two_versions) eq_refl))
      two_versions _
      (release "1.0.0"
         [asset EXTENSION_ASSET_TYPES_VSIX "https://cdn.example/1.0.0/vsix"])
      eq_refl eq_refl _)).
    apply selected_explicit; [discriminate|].
    apply first_later; [discriminate|]. now apply first_here.
  - refine (proj1 (proj2
      (C1_version_selection (serving two_versions) "publisher.name"
         (Some "9.9.9") (Some two_versions) eq_refl))
      two_versions _ "9.9.9" eq_refl eq_refl eq_refl _ _);
      [discriminate|].
    simpl. intros v [<-|[<-|[]]]; discriminate.
Defined.

(** ** The identifier precondition *)

(** C2, as stated, fails: split on its first [.], the identifier [a..b]
    has the two non-empty halves [a] and [.b], yet it is rejected
    without any request. *)
Lemma C2_double_dot_counterexample :
  before_dot "a..b" = "a" /\
  after_dot "a..b" = Some ".b" /\
  malformed_first_dot "a..b" = false /\
  outcome (fetchExtensionInfo (serving two_versions) "a..b") = Normal None /\
  requests (fetchExtensionInfo (serving two_versions) "a..b") = [].
Proof. repeat split. Qed.

(** C2 (amended): fetch-record fails fast, returning absent without
    issuing any network request, exactly when the identifier has no [.]
    separator, or the text before its first [.] is empty, or the text
    between its first [.] and the next [.] (or the end of the
    identifier) is empty; for every other identifier the precondition
    check passes and the one network query is issued.  Every identifier
    that is malformed by a split on the first [.] alone is among the
    rejected ones; in particular [invalid-id], [.name] and [publisher.]
    return absent with no network call. *)
Theorem C2_precondition
  (fetch : Request -> FetchResult) (extensionId : string) :
  (malformed_components extensionId = true <->
   requests (fetchExtensionInfo fetch extensionId) = []) /\
  (malformed_components extensionId = true ->
   outcome (fetchExtensionInfo fetch extensionId) = Normal None) /\
  (malformed_components extensionId = false ->
   requests (fetchExtensionInfo fetch extensionId) =
   [marketplace_query extensionId]) /\
  (malformed_first_dot extensionId = true ->
   malformed_components extensionId = true) /\
  (In extensionId ["invalid-id"; ".name"; "publisher."] ->
   outcome (fetchExtensionInfo fetch extensionId) = Normal None /\
   requests (fetchExtensionInfo fetch extensionId) = []).
Proof.
  rewrite fetchExtensionInfo_requests, fetchExtensionInfo_outcome.
  repeat split.
  - now intros ->.
  - destruct (malformed_components extensionId); [reflexivity|discriminate].
  - now intros ->.
  - now intros ->.
  - unfold malformed_first_dot, malformed_components.
    destruct (String.eqb (before_dot extensionId) ""); simpl;
      [reflexivity|].
    destruct (after_dot extensionId) as [[|c rest]|]; simpl;
      [reflexivity|discriminate|reflexivity].
  - destruct H as [<-|[<-|[<-|[]]]]; reflexivity.
  - destruct H as [<-|[<-|[<-|[]]]]; reflexivity.
Qed.

Lemma C2_precondition_witness :
  malformed_components "publisher." = true /\
  outcome (fetchExtensionInfo offline "publisher.") = Normal None /\
  malformed_components "ms-python.python" = false /\
  requests (fetchExtensionInfo offline "ms-python.python") =
    [marketplace_query "ms-python.python"].
Proof.
  split; [reflexivity|]. split.
  - exact (proj1 (proj2 (C2_precondition offline "publisher.")) eq_refl).
  - split; [reflexivity|].
    exact (proj1 (proj2 (proj2 (C2_precondition offline "ms-python.python")))
             eq_refl).
Defined.

(** ** The package asset *)

(** C3: once a version is selected, the result is absent when no file
    of that version carries the installable-package asset type, and
    otherwise the descriptor's [downloadUrl] is, unchanged, the source
    of a file of that version that carries it. *)
Theorem C3_package_asset
  (fetch : Request -> FetchResult) (extensionId : string)
  (versionArg : option string) (e : VSCodeExtension)
  (vs : list ExtensionVersion) (v : ExtensionVersion) :
  outcome (fetchExtensionInfo fetch extensionId) = Normal (Some e) ->
  versions e = Some vs ->
  Selected vs versionArg v ->
  let result := outcome (getExtensionDownloadUrl fetch extensionId versionArg) in
  ((forall f, In f (files v) ->
      assetType f <> "Microsoft.VisualStudio.Services.VSIXPackage") ->
   result = Normal None) /\
  ((exists f, In f (files v) /\
      assetType f = "Microsoft.VisualStudio.Services.VSIXPackage") ->
   exists d f,
     result = Normal (Some d) /\ In f (files v) /\
     assetType f = "Microsoft.VisualStudio.Services.VSIXPackage" /\
     downloadUrl d = source f).
Proof.
  intros Hf Hvs Hs result. subst result.
  rewrite (getExtensionDownloadUrl_outcome fetch _ _ _ Hf). simpl.
  rewrite Hvs. apply select_Selected in Hs. rewrite Hs. split.
  - intros Hnone. apply package_of_none in Hnone. now rewrite Hnone.
  - intros Hp. destruct (package_of_some v Hp) as [f Hpf].
    rewrite Hpf. simpl. exists (descriptor e v f), f.
    apply package_of_first, FirstWhere_In in Hpf. destruct Hpf as [Hin Hpk].
    repeat split; assumption.
Qed.

Lemma C3_package_asset_witness :
  outcome (fetchExtensionInfo (serving unpackaged) "acme.bare") =
    Normal (Some unpackaged) /\
  outcome (getExtensionDownloadUrl (serving unpackaged) "acme.bare" None) =
    Normal None.
Proof.
  split; [reflexivity|].
  refine (proj1
    (C3_package_asset (serving unpackaged) "acme.bare" None unpackaged _
       (release "0.1.0"
          [asset EXTENSION_ASSET_TYPES_MANIFEST "https://cdn.example/manifest"])
       eq_refl eq_refl (selected_latest _ _)) _).
  simpl. intros f [<-|[]]. discriminate.
Defined.

(** ** Addresses *)

Lemma extractExtensionIdFromUrl_outcome
  (newURL : string -> option URL) (url : string) :
  outcome (extractExtensionIdFromUrl newURL url) =
  Normal match newURL url with
         | None => None
         | Some u =>
             if String.eqb (hostname u) "marketplace.visualstudio.com"
             then match searchParams_get "itemName" (searchParams u) with
                  | Some v => if String.eqb v "" then None else Some v
                  | None => None
                  end
             else None
         end.
Proof.
  unfold extractExtensionIdFromUrl, js_new_URL.
  destruct (newURL url) as [u|]; simpl; [|reflexivity].
  destruct (String.eqb (hostname u) _); simpl; [|reflexivity].
  destruct (searchParams_get _ _) as [v|]; simpl; [|reflexivity].
  now destruct (String.eqb v "").
Qed.

(** C4, as stated, fails: the address parses, its host is the
    marketplace's and it has an [itemName] parameter, whose raw value
    is the empty string; the extraction returns absent, not that
    value. *)
Lemma C4_empty_itemName_counterexample :
  exists u,
    sample_newURL "https://marketplace.visualstudio.com/items?itemName=" =
      Some u /\
    hostname u = "marketplace.visualstudio.com" /\
    searchParams_get "itemName" (searchParams u) = Some "" /\
    outcome (extractExtensionIdFromUrl sample_newURL
               "https://marketplace.visualstudio.com/items?itemName=") =
      Normal None.
Proof. eexists. repeat split. Qed.

(** C4 (amended): identifier extraction never throws.  It returns
    absent when the string does not parse as a URL, or the host is not
    the marketplace host (whatever the path and the query), or there is
    no [itemName] query parameter (whatever the path), or the value of
    that parameter is empty; otherwise it returns exactly the value of
    the [itemName] parameter, neither re-encoded nor checked against
    the publisher.name format. *)
Theorem C4_extract_identifier
  (newURL : string -> option URL) (url : string) :
  let result := outcome (extractExtensionIdFromUrl newURL url) in
  (exists r, result = Normal r) /\
  (newURL url = None -> result = Normal None) /\
  (forall u, newURL url = Some u ->
     hostname u <> "marketplace.visualstudio.com" -> result = Normal None) /\
  (forall u, newURL url = Some u ->
     searchParams_get "itemName" (searchParams u) = None ->
     result = Normal None) /\
  (forall u, newURL url = Some u ->
     searchParams_get "itemName" (searchParams u) = Some "" ->
     result = Normal None) /\
  (forall u v, newURL url = Some u ->
     hostname u = "marketplace.visualstudio.com" ->
     searchParams_get "itemName" (searchParams u) = Some v -> v <> "" ->
     result = Normal (Some v)).
Proof.
  intros result. subst result. rewrite extractExtensionIdFromUrl_outcome.
  split; [eexists; reflexivity|].
  split; [now intros ->|].
  split; [|split; [|split]].
  - intros u -> Hh. apply String.eqb_neq in Hh. now rewrite Hh.
  - intros u -> ->. now destruct (String.eqb _ _).
  - intros u -> ->. now destruct (String.eqb _ _).
  - intros u v -> -> -> Hv. apply String.eqb_neq in Hv. now rewrite Hv.
Qed.

Lemma C4_extract_identifier_witness :
  sample_newURL
    "https://marketplace.visualstudio.com/items?itemName=publisher.extensionName" =
    Some {| hostname := "marketplace.visualstudio.com"; pathname := "/items";
            searchParams := [("itemName", "publisher.extensionName")] |} /\
  outcome (extractExtensionIdFromUrl sample_newURL
    "https://marketplace.visualstudio.com/items?itemName=publisher.extensionName") =
    Normal (Some "publisher.extensionName") /\
  outcome (extractExtensionIdFromUrl sample_newURL
    "https://github.com/items?itemName=publisher.extensionName") =
    Normal None.
Proof.
  split; [reflexivity|]. split.
  - refine (proj2 (proj2 (proj2 (proj2 (proj2
      (C4_extract_identifier sample_newURL
         "https://marketplace.visualstudio.com/items?itemName=publisher.extensionName")))))
      _ "publisher.extensionName" eq_refl eq_refl eq_refl _).
    discriminate.
  - refine (proj1 (proj2 (proj2
      (C4_extract_identifier sample_newURL
         "https://github.com/items?itemName=publisher.extensionName")))
      _ eq_refl _).
    discriminate.
Defined.

(** C9: on a marketplace-host address whose [itemName] parameter is
    present with an empty value, identifier extraction returns absent,
    the very result it gives when the parameter is missing; the empty
    value is never returned as an identifier. *)
Theorem C9_empty_itemName
  (newURL : string -> option URL) (url : string) (u : URL) :
  newURL url = Some u ->
  hostname u = "marketplace.visualstudio.com" ->
  searchParams_get "itemName" (searchParams u) = Some "" ->
  outcome (extractExtensionIdFromUrl newURL url) = Normal None /\
  (forall newURL' url' u',
     newURL' url' = Some u' ->
     searchParams_get "itemName" (searchParams u') = None ->
     outcome (extractExtensionIdFromUrl newURL' url') =
     outcome (extractExtensionIdFromUrl newURL url)).
Proof.
  intros Hu Hh Hq.
  assert (H : outcome (extractExtensionIdFromUrl newURL url) = Normal None).
  { rewrite extractExtensionIdFromUrl_outcome, Hu, Hh, Hq. reflexivity. }
  split; [assumption|].
  intros newURL' url' u' Hu' Hq'.
  rewrite H, extractExtensionIdFromUrl_outcome, Hu', Hq'.
  now destruct (String.eqb _ _).
Qed.

Lemma C9_empty_itemName_witness :
  sample_newURL "https://marketplace.visualstudio.com/items?itemName=" =
    Some {| hostname := "marketplace.visualstudio.com"; pathname := "/items";
            searchParams := [("itemName", "")] |} /\
  outcome (extractExtensionIdFromUrl sample_newURL
             "https://marketplace.visualstudio.com/items?itemName=") =
    Normal None.
Proof.
  split; [reflexivity|].
  exact (proj1 (C9_empty_itemName sample_newURL
    "https://marketplace.visualstudio.com/items?itemName=" _
    eq_refl eq_refl eq_refl)).
Defined.

(** C5: the detail-page classifier never throws, and it answers true if
    and only if the string parses as a URL whose host is the
    marketplace host and whose path is exactly [/items]; an unparseable
    string, the marketplace root and any other path or host give
    false. *)
Theorem C5_detail_page
  (newURL : string -> option URL) (url : string) :
  exists b,
    outcome (isMarketplaceExtensionPage newURL url) = Normal b /\
    (b = true <->
     exists u, newURL url = Some u /\
               hostname u = "marketplace.visualstudio.com" /\
               pathname u = "/items") /\
    (newURL url = None -> b = false).
Proof.
  unfold isMarketplaceExtensionPage, js_new_URL.
  destruct (newURL url) as [u|]; simpl.
  - eexists. split; [reflexivity|]. split; [|discriminate].
    rewrite andb_true_iff, !String.eqb_eq. split.
    + intros [Hh Hp]. now exists u.
    + intros [u' [[= <-] H]]. exact H.
  - exists false. split; [reflexivity|]. split; [|reflexivity].
    split; [discriminate|]. intros [u [[=] _]].
Qed.

Lemma C5_detail_page_witness :
  sample_newURL "not a url" = None /\
  outcome (isMarketplaceExtensionPage sample_newURL "not a url") = Normal false.
Proof.
  split; [reflexivity|].
  destruct (C5_detail_page sample_newURL "not a url") as [b [Hb [_ Hnone]]].
  rewrite Hb. f_equal. exact (Hnone eq_refl).
Defined.

Example detail_page_examples :
  outcome (isMarketplaceExtensionPage sample_newURL
    "https://marketplace.visualstudio.com/items?itemName=publisher.extensionName") =
    Normal true /\
  outcome (isMarketplaceExtensionPage sample_newURL
    "https://marketplace.visualstudio.com/") = Normal false /\
  outcome (isMarketplaceExtensionPage sample_newURL
    "https://github.com/items?itemName=publisher.extensionName") = Normal false.
Proof. repeat split. Qed.

(** ** The synthesized file name *)

(** C6: whenever a descriptor is resolved, its file name is the
    publisher's internal name, a [.], the extension's internal name, a
    [-], the selected version string (the descriptor's version) and the
    suffix [.vsix]; for publisher [acme], extension [tool] and version
    [1.2.3] it is exactly [acme.tool-1.2.3.vsix]. *)
Theorem C6_file_name
  (fetch : Request -> FetchResult) (extensionId : string)
  (versionArg : option string) (d : DownloadUrlInfo) :
  outcome (getExtensionDownloadUrl fetch extensionId versionArg) =
    Normal (Some d) ->
  exists e,
    outcome (fetchExtensionInfo fetch extensionId) = Normal (Some e) /\
    fileName d =
      (publisherName (publisher e) ++ "." ++ extensionName e ++ "-" ++
       dl_version d ++ ".vsix")%string /\
    (publisherName (publisher e) = "acme" -> extensionName e = "tool" ->
     dl_version d = "1.2.3" -> fileName d = "acme.tool-1.2.3.vsix").
Proof.
  intros H.
  pose proof (fetchExtensionInfo_outcome fetch extensionId) as Hf.
  rewrite (getExtensionDownloadUrl_outcome fetch _ _ _ Hf) in H.
  injection H as H.
  destruct (if malformed_components extensionId then None else _) as [e|];
    simpl in H; [|discriminate].
  exists e. split; [assumption|].
  destruct (versions e) as [vs|]; [|discriminate].
  destruct (select vs versionArg) as [v|]; [|discriminate].
  destruct (package_of v) as [f|]; simpl in H; [|discriminate].
  injection H as <-. simpl. split; [reflexivity|].
  intros -> -> ->. reflexivity.
Qed.

Lemma C6_file_name_witness :
  outcome (getExtensionDownloadUrl (serving acme_tool) "acme.tool" None) =
    Normal (Some {| downloadUrl := "https://cdn.example/acme/tool/1.2.3";
                    dl_version := "1.2.3";
                    fileName := "acme.tool-1.2.3.vsix" |}) /\
  exists e,
    outcome (fetchExtensionInfo (serving acme_tool) "acme.tool") =
      Normal (Some e) /\
    "acme.tool-1.2.3.vsix" =
      (publisherName (publisher e) ++ "." ++ extensionName e ++ "-" ++
       "1.2.3" ++ ".vsix")%string.
Proof.
  split; [reflexivity|].
  destruct (C6_file_name (serving acme_tool) "acme.tool" None _ eq_refl)
    as [e [He [Hn _]]].
  exists e. split; [exact He|exact Hn].
Defined.

(** ** The package asset at the lowest index *)

(** C10: when the selected version lists the installable-package asset
    type more than once, the descriptor is built from the entry at the
    lowest index: its [downloadUrl] is the source of the first matching
    file, whatever entries follow it. *)
Theorem C10_first_package
  (fetch : Request -> FetchResult) (extensionId : string)
  (versionArg : option string) (e : VSCodeExtension)
  (vs : list ExtensionVersion) (v : ExtensionVersion)
  (before after : list ExtensionFile) (f : ExtensionFile) :
  outcome (fetchExtensionInfo fetch extensionId) = Normal (Some e) ->
  versions e = Some vs ->
  Selected vs versionArg v ->
  files v = before ++ f :: after ->
  (forall g, In g before ->
     assetType g <> "Microsoft.VisualStudio.Services.VSIXPackage") ->
  assetType f = "Microsoft.VisualStudio.Services.VSIXPackage" ->
  exists d,
    outcome (getExtensionDownloadUrl fetch extensionId versionArg) =
      Normal (Some d) /\
    downloadUrl d = source f /\
    dl_version d = version v /\
    fileName d =
      (publisherName (publisher e) ++ "." ++ extensionName e ++ "-" ++
       version v ++ ".vsix")%string.
Proof.
  intros Hf Hvs Hs Hfiles Hbefore Hpk.
  rewrite (getExtensionDownloadUrl_outcome fetch _ _ _ Hf). simpl.
  rewrite Hvs. apply select_Selected in Hs. rewrite Hs.
  assert (Hp : package_of v = Some f).
  { apply package_of_first. rewrite Hfiles.
    apply FirstWhere_split; assumption. }
  rewrite Hp. simpl. eexists. repeat split.
Qed.

Lemma C10_first_package_witness :
  outcome (fetchExtensionInfo (serving twice_packaged) "acme.twice") =
    Normal (Some twice_packaged) /\
  exists d,
    outcome (getExtensionDownloadUrl (serving twice_packaged) "acme.twice"
               (Some "3.0.0")) = Normal (Some d) /\
    downloadUrl d = "https://cdn.example/first".
Proof.
  split; [reflexivity|].
  pose (v := release "3.0.0"
       [asset EXTENSION_ASSET_TYPES_ICON "https://cdn.example/icon";
        asset EXTENSION_ASSET_TYPES_VSIX "https://cdn.example/first";
        asset EXTENSION_ASSET_TYPES_VSIX "https://cdn.example/second"]).
  assert (Hs : Selected [v] (Some "3.0.0") v).
  { apply selected_explicit; [discriminate|]. now apply first_here. }
  assert (Hb : forall g,
             In g [asset EXTENSION_ASSET_TYPES_ICON "https://cdn.example/icon"] ->
             assetType g <> "Microsoft.VisualStudio.Services.VSIXPackage").
  { simpl. intros g [<-|[]]. discriminate. }
  destruct (C10_first_package (serving twice_packaged) "acme.twice"
    (Some "3.0.0") twice_packaged [v] v
    [asset EXTENSION_ASSET_TYPES_ICON "https://cdn.example/icon"]
    [asset EXTENSION_ASSET_TYPES_VSIX "https://cdn.example/second"]
    (asset EXTENSION_ASSET_TYPES_VSIX "https://cdn.example/first")
    eq_refl eq_refl Hs eq_refl Hb eq_refl) as [d [Hd [Hu _]]].
  exists d. split; [exact Hd|exact Hu].
Defined.

(** ** Failures stay inside the client *)

Lemma QueryFails_answer (r : FetchResult) : QueryFails r -> answer r = None.
Proof.
  intros H. destruct H; simpl; try reflexivity;
    destruct (ok r); try reflexivity; try discriminate;
    repeat match goal with
           | E : _ = _ |- _ => rewrite E
           end; reflexivity.
Qed.

Lemma downloadExtensionFile_run
  (fetch : Request -> FetchResult) (downloadUrl filename : string) :
  outcome (downloadExtensionFile fetch downloadUrl filename) =
    Normal (delivered (fetch (download_request downloadUrl))) /\
  requests (downloadExtensionFile fetch downloadUrl filename) =
    [download_request downloadUrl].
Proof.
  unfold downloadExtensionFile, js_fetch, delivered.
  fold (download_request downloadUrl).
  destruct (fetch (download_request downloadUrl)) as [e|r]; simpl;
    [split; reflexivity|].
  destruct (ok r); simpl; [|split; reflexivity].
  destruct (response_blob r) as [b|e]; simpl; split; reflexivity.
Qed.

Lemma DownloadFails_delivered (r : FetchResult) :
  DownloadFails r -> delivered r = None.
Proof.
  intros H. destruct H; simpl; try reflexivity.
  - now rewrite H.
  - rewrite H. now destruct (ok r).
Qed.

(** C7: none of the public client operations lets a failure escape:
    each always completes normally, for every input and every
    behaviour of the network.  Moreover fetch-record and
    resolve-download-descriptor return absent whenever the query they
    send meets a transport or data-shape failure (a rejected request, a
    non-success status, a body without the results/extensions nesting
    or with an empty extensions array), and raw-bytes retrieval returns
    absent whenever its request is rejected or answered with a
    non-success status. *)
Theorem C7_failures_contained (fetch : Request -> FetchResult) :
  (forall extensionId,
     exists r, outcome (fetchExtensionInfo fetch extensionId) = Normal r) /\
  (forall extensionId versionArg,
     exists r, outcome (getExtensionDownloadUrl fetch extensionId versionArg) =
               Normal r) /\
  (forall downloadUrl filename,
     exists r, outcome (downloadExtensionFile fetch downloadUrl filename) =
               Normal r) /\
  (forall extensionId,
     (forall req, In req (requests (fetchExtensionInfo fetch extensionId)) ->
                  QueryFails (fetch req)) ->
     outcome (fetchExtensionInfo fetch extensionId) = Normal None) /\
  (forall extensionId versionArg,
     (forall req,
        In req (requests (getExtensionDownloadUrl fetch extensionId versionArg)) ->
        QueryFails (fetch req)) ->
     outcome (getExtensionDownloadUrl fetch extensionId versionArg) =
     Normal None) /\
  (forall downloadUrl filename,
     (forall req,
        In req (requests (downloadExtensionFile fetch downloadUrl filename)) ->
        DownloadFails (fetch req)) ->
     outcome (downloadExtensionFile fetch downloadUrl filename) = Normal None).
Proof.
  assert (Hfetch : forall extensionId,
     (forall req, In req (requests (fetchExtensionInfo fetch extensionId)) ->
                  QueryFails (fetch req)) ->
     outcome (fetchExtensionInfo fetch extensionId) = Normal None).
  { intros extensionId.
    rewrite fetchExtensionInfo_requests, fetchExtensionInfo_outcome.
    destruct (malformed_components extensionId); [reflexivity|].
    intros H. rewrite QueryFails_answer; [reflexivity|].
    apply H. now left. }
  repeat split.
  - intros extensionId. rewrite fetchExtensionInfo_outcome. eexists; reflexivity.
  - intros extensionId versionArg.
    rewrite (getExtensionDownloadUrl_outcome fetch _ _ _
               (fetchExtensionInfo_outcome fetch extensionId)).
    eexists; reflexivity.
  - intros downloadUrl filename.
    rewrite (proj1 (downloadExtensionFile_run fetch downloadUrl filename)).
    eexists; reflexivity.
  - exact Hfetch.
  - intros extensionId versionArg H.
    rewrite getExtensionDownloadUrl_requests in H.
    now rewrite (getExtensionDownloadUrl_outcome fetch _ _ _
                   (Hfetch extensionId H)).
  - intros downloadUrl filename H.
    destruct (downloadExtensionFile_run fetch downloadUrl filename) as [Ho Hr].
    rewrite Ho. rewrite DownloadFails_delivered; [reflexivity|].
    apply H. rewrite Hr. now left.
Qed.

Lemma C7_failures_contained_witness :
  (forall req, QueryFails (offline req)) /\
  (forall req, DownloadFails (failing req)) /\
  outcome (fetchExtensionInfo offline "publisher.name") = Normal None /\
  outcome (getExtensionDownloadUrl offline "publisher.name" None) =
    Normal None /\
  outcome (downloadExtensionFile failing "https://cdn.example/1.0.0/vsix"
             "publisher.name-1.0.0.vsix") = Normal None.
Proof.
  split; [intros req; apply query_rejected|].
  split; [intros req; now apply download_status|].
  split; [|split].
  - apply (proj1 (proj2 (proj2 (proj2 (C7_failures_contained offline))))).
    intros req _. apply query_rejected.
  - apply (proj1 (proj2 (proj2 (proj2 (proj2
             (C7_failures_contained offline)))))).
    intros req _. apply query_rejected.
  - apply (proj2 (proj2 (proj2 (proj2 (proj2
             (C7_failures_contained failing)))))).
    intros req _. now apply download_status.
Defined.

(** ** The query on the wire *)

(** C8: for an identifier that passes the precondition check,
    fetch-record issues exactly one request, an HTTP POST to the
    gallery query endpoint, whose JSON body holds one filter group with
    a single criteria entry whose value is the identifier verbatim,
    [pageNumber] 1, [pageSize] 1, [sortBy] 0 and [sortOrder] 0, an
    empty [assetTypes] array and [flags] 914. *)
Theorem C8_query_request
  (fetch : Request -> FetchResult) (extensionId : string) :
  malformed_components extensionId = false ->
  exists req body group criterion,
    requests (fetchExtensionInfo fetch extensionId) = [req] /\
    req_method req = POST /\
    req_url req =
      "https://marketplace.visualstudio.com/_apis/public/gallery/extensionquery" /\
    header "Accept" req = Some "application/json;api-version=6.0-preview.1" /\
    header "Content-Type" req = Some "application/json" /\
    req_body req = Some body /\
    member "filters" body = Some (JArr [group]) /\
    member "criteria" group = Some (JArr [criterion]) /\
    member "filterType" criterion = Some (JNum 7) /\
    member "value" criterion = Some (JStr extensionId) /\
    member "pageNumber" group = Some (JNum 1) /\
    member "pageSize" group = Some (JNum 1) /\
    member "sortBy" group = Some (JNum 0) /\
    member "sortOrder" group = Some (JNum 0) /\
    member "assetTypes" body = Some (JArr []) /\
    member "flags" body = Some (JNum 914).
Proof.
  intros H. rewrite fetchExtensionInfo_requests, H.
  do 4 eexists. repeat split.
Qed.

Lemma C8_query_request_witness :
  malformed_components "ms-python.python" = false /\
  exists req body group criterion,
    requests (fetchExtensionInfo offline "ms-python.python") = [req] /\
    req_method req = POST /\
    req_body req = Some body /\
    member "filters" body = Some (JArr [group]) /\
    member "criteria" group = Some (JArr [criterion]) /\
    member "value" criterion = Some (JStr "ms-python.python") /\
    member "flags" body = Some (JNum 914).
Proof.
  split; [reflexivity|].
  destruct (C8_query_request offline "ms-python.python" eq_refl)
    as [req [body [group [criterion H]]]].
  exists req, body, group, criterion. tauto.
Defined.

(** The source annotates the flags constant with the union
    [0x2 | 0x8 | 0x200 | 0x800]; that union is 2570, while the value
    sent is 914, that is [0x2 | 0x10 | 0x80 | 0x100 | 0x200]. *)
Remark flags_constant (fetch : Request -> FetchResult) :
  exists req body,
    requests (fetchExtensionInfo fetch "ms-python.python") = [req] /\
    req_body req = Some body /\
    member "flags" body =
      Some (JNum (Z.lor 2 (Z.lor 16 (Z.lor 128 (Z.lor 256 512))))) /\
    Z.lor 2 (Z.lor 8 (Z.lor 512 2048)) = 2570%Z.
Proof.
  rewrite fetchExtensionInfo_requests. do 2 eexists. repeat split.
Qed.

(** * Further properties of the client *)

(** ** Which record comes back *)

Lemma answer_some (r : FetchResult) (e : VSCodeExtension) :
  answer r = Some e <->
  exists resp d q qs es,
    r = FetchResponse resp /\ ok resp = true /\
    response_json resp = Normal (Some d) /\
    results d = Some (q :: qs) /\ extensions q = Some (e :: es).
Proof.
  split.
  - destruct r as [err|resp]; simpl; [discriminate|].
    destruct (ok resp) eqn:Hok; [|discriminate].
    destruct (response_json resp) as [[d|]|err] eqn:Hj; try discriminate.
    destruct (results d) as [[|q qs]|] eqn:Hr; try discriminate.
    destruct (extensions q) as [[|x es]|] eqn:He; try discriminate.
    intros [= ->]. exists resp, d, q, qs, es. repeat split; assumption.
  - intros [resp [d [q [qs [es [-> [Hok [Hj [Hr He]]]]]]]]].
    simpl. now rewrite Hok, Hj, Hr, He.
Qed.


(** X1: [fetchExtensionInfo] returns a record exactly when the
    identifier passes the precondition and the query is answered with a
    success status and a body whose first result lists at least one
    extension; the record returned is the first extension of the first
    result, whatever else the body lists. *)
Theorem fetchExtensionInfo_returns_first
  (fetch : Request -> FetchResult) (extensionId : string)
  (e : VSCodeExtension) :
  outcome (fetchExtensionInfo fetch extensionId) = Normal (Some e) <->
  malformed_components extensionId = false /\
  exists resp d q qs es,
    fetch (marketplace_query extensionId) = FetchResponse resp /\
    ok resp = true /\
    response_json resp = Normal (Some d) /\
    results d = Some (q :: qs) /\
    extensions q = Some (e :: es).
Proof.
  rewrite fetchExtensionInfo_outcome.
  destruct (malformed_components extensionId).
  - split; [discriminate|]. intros [[=] _].
  - rewrite <- answer_some. split.
    + intros [= H]. now split.
    + intros [_ ->]. reflexivity.
Qed.



(** ** Where a descriptor comes from *)

Lemma find_some_In {A} (p : A -> bool) (l : list A) (x : A) :
  List.find p l = Some x -> In x l /\ p x = true.
Proof. apply List.find_some. Qed.

Lemma select_In (vs : list ExtensionVersion) (versionArg : option string)
  (v : ExtensionVersion) :
  select vs versionArg = Some v -> In v vs.
Proof.
  unfold select. destruct (negb (falsy versionArg)).
  - intros H. now apply find_some_In in H.
  - destruct vs as [|v0 rest]; simpl; [discriminate|].
    intros [= ->]. now left.
Qed.

(** X3: a descriptor is never made up.  Whenever
    [getExtensionDownloadUrl] returns one, the fetched record has a
    version with the descriptor's version string, that version lists a
    file with the installable-package asset type, and the descriptor's
    [downloadUrl] is that file's source; and when a non-empty version
    was requested, the descriptor's version is the requested one. *)
Theorem getExtensionDownloadUrl_provenance
  (fetch : Request -> FetchResult) (extensionId : string)
  (versionArg : option string) (d : DownloadUrlInfo) :
  outcome (getExtensionDownloadUrl fetch extensionId versionArg) =
    Normal (Some d) ->
  exists e vs v f,
    outcome (fetchExtensionInfo fetch extensionId) = Normal (Some e) /\
    versions e = Some vs /\ In v vs /\ In f (files v) /\
    assetType f = "Microsoft.VisualStudio.Services.VSIXPackage" /\
    dl_version d = version v /\
    downloadUrl d = source f /\
    (forall wanted, versionArg = Some wanted -> wanted <> "" ->
                    dl_version d = wanted).
Proof.
  intros H.
  pose proof (fetchExtensionInfo_outcome fetch extensionId) as Hf.
  rewrite (getExtensionDownloadUrl_outcome fetch _ _ _ Hf) in H.
  injection H as H.
  destruct (if malformed_components extensionId then None else _) as [e|];
    simpl in H; [|discriminate].
  destruct (versions e) as [vs|] eqn:Hvs; [|discriminate].
  destruct (select vs versionArg) as [v|] eqn:Hsel; [|discriminate].
  destruct (package_of v) as [f|] eqn:Hp; simpl in H; [|discriminate].
  injection H as <-.
  apply find_some_In in Hp. destruct Hp as [Hin Hpk].
  apply String.eqb_eq in Hpk.
  exists e, vs, v, f. repeat split; try assumption.
  - eapply select_In; eassumption.
  - intros wanted -> Hne. simpl.
    apply select_Selected in Hsel. inversion Hsel; subst; [congruence|].
    match goal with
    | F : FirstWhere _ _ _ |- _ => apply FirstWhere_In in F; apply F
    end.
Qed.

Lemma getExtensionDownloadUrl_provenance_witness :
  exists e vs v f,
    outcome (fetchExtensionInfo (serving two_versions) "publisher.name") =
      Normal (Some e) /\
    versions e = Some vs /\ In v vs /\ In f (files v) /\
    assetType f = "Microsoft.VisualStudio.Services.VSIXPackage" /\
    version v = "1.0.0" /\
    source f = "https://cdn.example/1.0.0/vsix".
Proof.
  destruct (getExtensionDownloadUrl_provenance (serving two_versions)
    "publisher.name" (Some "1.0.0")
    {| downloadUrl := "https://cdn.example/1.0.0/vsix";
       dl_version := "1.0.0";
       fileName := "publisher.name-1.0.0.vsix" |} eq_refl)
    as [e [vs [v [f [H1 [H2 [H3 [H4 [H5 [H6 [H7 _]]]]]]]]]]].
  exists e, vs, v, f. simpl in H6, H7.
  repeat split; try assumption; symmetry; assumption.
Defined.

(** X4: resolving a descriptor costs at most one network request: none
    for a malformed identifier, otherwise the one marketplace query,
    whichever version is asked for and whatever the answer; the
    package's own address is never contacted. *)
Theorem getExtensionDownloadUrl_one_query
  (fetch : Request -> FetchResult) (extensionId : string)
  (versionArg : option string) :
  requests (getExtensionDownloadUrl fetch extensionId versionArg) =
  if malformed_components extensionId then []
  else [marketplace_query extensionId].
Proof.
  rewrite getExtensionDownloadUrl_requests.
  apply fetchExtensionInfo_requests.
Qed.

(** ** Raw bytes *)

(** X5: [downloadExtensionFile] sends exactly one GET, without headers
    or body, to the address it was given; it returns the response's
    bytes exactly when the response has a success status and its body
    can be read, and the [filename] argument has no influence on what
    it does. *)
Theorem downloadExtensionFile_bytes
  (fetch : Request -> FetchResult) (url filename : string) :
  requests (downloadExtensionFile fetch url filename) =
    [{| req_url := url; req_method := GET;
        req_headers := []; req_body := None |}] /\
  (forall b,
     outcome (downloadExtensionFile fetch url filename) = Normal (Some b) <->
     exists resp,
       fetch {| req_url := url; req_method := GET;
                req_headers := []; req_body := None |} = FetchResponse resp /\
       ok resp = true /\ response_blob resp = Normal b) /\
  (forall other,
     downloadExtensionFile fetch url other =
     downloadExtensionFile fetch url filename).
Proof.
  destruct (downloadExtensionFile_run fetch url filename) as [Ho Hr].
  split; [exact Hr|]. split; [|reflexivity].
  intros b. rewrite Ho. unfold delivered, download_request.
  destruct (fetch _) as [err|resp].
  - split; [discriminate|]. intros [resp [[=] _]].
  - destruct (ok resp) eqn:Hok.
    + destruct (response_blob resp) as [b'|err] eqn:Hb.
      * split.
        -- intros [= ->]. now exists resp.
        -- intros [resp' [[= <-] [_ Hb']]]. congruence.
      * split; [discriminate|].
        intros [resp' [[= <-] [_ Hb']]]. congruence.
    + split; [discriminate|].
      intros [resp' [[= <-] [Hok' _]]]. congruence.
Qed.

(** ** Identifiers found in addresses *)

(** X6: an identifier is returned only from an address that parses, is
    on the marketplace host and carries a non-empty [itemName] value,
    and then it is that value; the path of the address plays no part,
    so an identifier is extracted from any page of the marketplace
    host that carries the parameter. *)
Theorem extractExtensionIdFromUrl_some_iff
  (newURL : string -> option URL) (url id : string) :
  outcome (extractExtensionIdFromUrl newURL url) = Normal (Some id) <->
  exists u,
    newURL url = Some u /\
    hostname u = "marketplace.visualstudio.com" /\
    searchParams_get "itemName" (searchParams u) = Some id /\
    id <> "".
Proof.
  rewrite extractExtensionIdFromUrl_outcome. split.
  - destruct (newURL url) as [u|]; [|discriminate].
    destruct (String.eqb (hostname u) _) eqn:Hh; [|discriminate].
    destruct (searchParams_get _ _) as [v|] eqn:Hq; [|discriminate].
    destruct (String.eqb v "") eqn:Hv; [discriminate|].
    intros [= ->]. exists u. apply String.eqb_eq in Hh.
    apply String.eqb_neq in Hv. repeat split; assumption.
  - intros [u [-> [-> [-> Hne]]]]. apply String.eqb_neq in Hne.
    now rewrite Hne.
Qed.

Lemma isMarketplaceExtensionPage_true_iff (newURL : string -> option URL) (url : string) :
  exists b,
    outcome (isMarketplaceExtensionPage newURL url) = Normal b /\
    (b = true <->
     exists u, newURL url = Some u /\
               hostname u = "marketplace.visualstudio.com" /\
               pathname u = "/items").
Proof.
  unfold isMarketplaceExtensionPage, js_new_URL.
  destruct (newURL url) as [u|]; simpl.
  - eexists. split; [reflexivity|].
    rewrite andb_true_iff, !String.eqb_eq. split.
    + intros [Hh Hp]. now exists u.
    + intros [u' [[= <-] H]]. exact H.
  - exists false. split; [reflexivity|].
    split; [discriminate|]. intros [u [[=] _]].
Qed.

(** X27: the two checks a caller runs on an address do not imply each
    other.  On an address classified as a detail page, extraction still
    returns absent exactly when the [itemName] parameter is missing or
    empty; the callers test the page first and the identifier next, and
    handle that case separately. *)
Theorem detail_page_without_identifier
  (newURL : string -> option URL) (url : string) :
  outcome (isMarketplaceExtensionPage newURL url) = Normal true ->
  (outcome (extractExtensionIdFromUrl newURL url) = Normal None <->
   exists u,
     newURL url = Some u /\
     (searchParams_get "itemName" (searchParams u) = None \/
      searchParams_get "itemName" (searchParams u) = Some "")).
Proof.
  intros Hpage.
  destruct (isMarketplaceExtensionPage_true_iff newURL url) as [b [Hb Hiff]].
  rewrite Hb in Hpage. injection Hpage as ->.
  destruct (proj1 Hiff eq_refl) as [u [Hu [Hh _]]].
  rewrite extractExtensionIdFromUrl_outcome, Hu, Hh. simpl. split.
  - intros H. exists u. split; [reflexivity|].
    destruct (searchParams_get _ _) as [v|]; [|now left].
    destruct (String.eqb_spec v ""); [subst; now right|discriminate].
  - intros [u' [[= <-] [->| ->]]]; reflexivity.
Qed.

Lemma detail_page_without_identifier_witness :
  outcome (isMarketplaceExtensionPage sample_newURL
             "https://marketplace.visualstudio.com/items") = Normal true /\
  outcome (extractExtensionIdFromUrl sample_newURL
             "https://marketplace.visualstudio.com/items") = Normal None.
Proof.
  split; [reflexivity|].
  apply (proj2 (detail_page_without_identifier sample_newURL
                  "https://marketplace.visualstudio.com/items" eq_refl)).
  eexists. split; [reflexivity|]. now left.
Defined.

(** ** The shape of an accepted identifier *)

Lemma before_after_dot (s : string) :
  dotless (before_dot s) = true /\
  s = (before_dot s ++ match after_dot s with
                       | Some rest => String dot rest
                       | None => ""
                       end)%string.
Proof.
  induction s as [|c s [IH1 IH2]]; simpl; [split; reflexivity|].
  destruct (Ascii.eqb c dot) eqn:E; simpl.
  - apply Ascii.eqb_eq in E. subst c. split; reflexivity.
  - rewrite E, IH1. split; [reflexivity|]. now rewrite <- IH2.
Qed.

Lemma before_dot_app (p rest : string) :
  dotless p = true ->
  before_dot (p ++ String dot rest) = p /\
  after_dot (p ++ String dot rest) = Some rest.
Proof.
  induction p as [|c p IH]; simpl; intros H.
  - split; reflexivity.
  - apply andb_true_iff in H. destruct H as [Hc Hp].
    apply negb_true_iff in Hc. rewrite Hc.
    destruct (IH Hp) as [-> ->]. split; reflexivity.
Qed.

Lemma before_dot_dotless (p : string) :
  dotless p = true -> before_dot p = p /\ after_dot p = None.
Proof.
  induction p as [|c p IH]; simpl; intros H; [split; reflexivity|].
  apply andb_true_iff in H. destruct H as [Hc Hp].
  apply negb_true_iff in Hc. rewrite Hc.
  destruct (IH Hp) as [-> ->]. split; reflexivity.
Qed.

(** X7: the identifiers that pass the precondition of
    [fetchExtensionInfo] are exactly those of the form [p.n] or
    [p.n.tail] with [p] and [n] non-empty and free of dots: further
    dot-separated components are not looked at, and the identifier is
    sent to the marketplace whole. *)
Theorem accepted_identifier_shape
  (fetch : Request -> FetchResult) (extensionId : string) :
  requests (fetchExtensionInfo fetch extensionId) =
    [marketplace_query extensionId] <->
  exists p n tail,
    extensionId = (p ++ "." ++ n ++ tail)%string /\
    p <> "" /\ n <> "" /\ dotless p = true /\ dotless n = true /\
    (tail = "" \/ exists t, tail = String dot t).
Proof.
  rewrite fetchExtensionInfo_requests.
  assert (Hshape : malformed_components extensionId = false <->
    exists p n tail,
      extensionId = (p ++ "." ++ n ++ tail)%string /\
      p <> "" /\ n <> "" /\ dotless p = true /\ dotless n = true /\
      (tail = "" \/ exists t, tail = String dot t)).
  { unfold malformed_components. split.
    - intros H. apply orb_false_iff in H. destruct H as [Hp Hn].
      destruct (after_dot extensionId) as [rest|] eqn:Ha; [|discriminate].
      destruct (before_after_dot extensionId) as [Dp Ep].
      destruct (before_after_dot rest) as [Dn En].
      rewrite Ha in Ep.
      exists (before_dot extensionId), (before_dot rest),
        (match after_dot rest with Some r => String dot r | None => "" end).
      apply String.eqb_neq in Hp, Hn.
      repeat split; try assumption.
      + rewrite Ep at 1. simpl. now rewrite <- En.
      + destruct (after_dot rest) as [r|]; [right; now exists r|now left].
    - intros [p [n [tail [-> [Hp [Hn [Dp [Dn Ht]]]]]]]].
      change (p ++ "." ++ n ++ tail)%string
        with (p ++ String dot (n ++ tail))%string.
      destruct (before_dot_app p (n ++ tail)%string Dp) as [-> ->].
      apply String.eqb_neq in Hp. rewrite Hp. simpl.
      apply String.eqb_neq.
      destruct Ht as [->|[t ->]].
      + replace (n ++ "")%string with n.
        * now rewrite (proj1 (before_dot_dotless n Dn)).
        * clear. induction n as [|c n IH]; simpl; [reflexivity|].
          now rewrite <- IH.
      + now rewrite (proj1 (before_dot_app n t Dn)). }
  rewrite <- Hshape.
  destruct (malformed_components extensionId); split;
    try discriminate; reflexivity.
Qed.

(** ** What is logged *)


(** * Colours *)

Local Open Scope Z_scope.

Lemma wrap32_small (z : Z) : - 2 ^ 31 <= z < 2 ^ 31 -> wrap32 z = z.
Proof.
  unfold wrap32. change (2 ^ 32) with 4294967296.
  change (2 ^ 31) with 2147483648. intros H.
  destruct (Z.ltb_spec (z mod 4294967296) 2147483648) as [L|L];
    Z.div_mod_to_equations; lia.
Qed.

Lemma wrap32_range (z : Z) : - 2 ^ 31 <= wrap32 z < 2 ^ 31.
Proof.
  unfold wrap32. change (2 ^ 32) with 4294967296.
  change (2 ^ 31) with 2147483648.
  destruct (Z.ltb_spec (z mod 4294967296) 2147483648) as [L|L];
    Z.div_mod_to_equations; lia.
Qed.

Lemma land_high_low (hi n lo : Z) :
  0 <= n -> 0 <= lo < 2 ^ n -> Z.land (hi * 2 ^ n) lo = 0.
Proof.
  intros Hn Hlo. apply Z.bits_inj'. intros i Hi.
  rewrite Z.land_spec, Z.bits_0.
  destruct (Z.lt_ge_cases i n) as [L|L].
  - rewrite Z.mul_pow2_bits_low by lia. reflexivity.
  - rewrite <- (Z.mod_small lo (2 ^ n)) by lia.
    rewrite Z.mod_pow2_bits_high by lia. apply andb_false_r.
Qed.

Lemma lor_high_low (hi n lo : Z) :
  0 <= n -> 0 <= lo < 2 ^ n -> Z.lor (hi * 2 ^ n) lo = hi * 2 ^ n + lo.
Proof.
  intros Hn Hlo. pose proof (land_high_low hi n lo Hn Hlo) as H.
  rewrite Z.add_nocarry_lxor by exact H.
  symmetry. now apply Z.lxor_lor.
Qed.

Lemma clamp_range (x : Z) : 0 <= clamp x <= 255.
Proof. unfold clamp. lia. Qed.

Lemma js_shl_byte (x n : Z) :
  0 <= x <= 255 -> 0 <= n <= 16 -> js_shl x n = x * 2 ^ n.
Proof.
  intros Hx Hn. unfold js_shl.
  assert (Hn' : Z.land n 31 = n).
  { change 31 with (Z.ones 5). rewrite Z.land_ones by lia.
    apply Z.mod_small. change (2 ^ 5) with 32. lia. }
  rewrite Hn', (wrap32_small x) by (change (2 ^ 31) with 2147483648; lia).
  rewrite Z.shiftl_mul_pow2 by lia.
  apply wrap32_small. change (2 ^ 31) with 2147483648.
  assert (2 ^ n <= 2 ^ 16) by (apply Z.pow_le_mono_r; lia).
  assert (0 < 2 ^ n) by (apply Z.pow_pos_nonneg; lia).
  change (2 ^ 16) with 65536 in *. nia.
Qed.

(** The word assembled from three bytes prints as their colour. *)
Lemma assemble_colour (r g b : Z) :
  0 <= r <= 255 -> 0 <= g <= 255 -> 0 <= b <= 255 ->
  String "#"
    (slice1 (toString16
       (js_or (js_or (js_or (js_shl 1 24) (js_shl r 16)) (js_shl g 8)) b))) =
  colour r g b.
Proof.
  intros Hr Hg Hb.
  rewrite (js_shl_byte r 16), (js_shl_byte g 8) by lia.
  change (js_shl 1 24) with 16777216.
  change (2 ^ 16) with 65536. change (2 ^ 8) with 256.
  assert (E1 : js_or 16777216 (r * 65536) = 16777216 + r * 65536).
  { unfold js_or. rewrite !wrap32_small
      by (change (2 ^ 31) with 2147483648; lia).
    apply (lor_high_low 1 24); [lia|]. change (2 ^ 24) with 16777216. lia. }
  rewrite E1.
  assert (E2 : js_or (16777216 + r * 65536) (g * 256) =
               16777216 + r * 65536 + g * 256).
  { unfold js_or. rewrite !wrap32_small
      by (change (2 ^ 31) with 2147483648; lia).
    replace (16777216 + r * 65536) with ((256 + r) * 2 ^ 16)
      by (change (2 ^ 16) with 65536; lia).
    apply lor_high_low; [lia|]. change (2 ^ 16) with 65536. lia. }
  rewrite E2.
  assert (E3 : js_or (16777216 + r * 65536 + g * 256) b =
               16777216 + r * 65536 + g * 256 + b).
  { unfold js_or. rewrite !wrap32_small
      by (change (2 ^ 31) with 2147483648; lia).
    replace (16777216 + r * 65536 + g * 256)
      with ((65536 + r * 256 + g) * 2 ^ 8)
      by (change (2 ^ 8) with 256; lia).
    apply lor_high_low; [lia|]. change (2 ^ 8) with 256. lia. }
  rewrite E3.
  set (n := 16777216 + r * 65536 + g * 256 + b).
  assert (Hn : 16777216 <= n < 33554432) by (subst n; lia).
  unfold toString16.
  destruct (Z.eqb_spec n 0) as [?|_]; [lia|].
  destruct (Z.ltb_spec n 0) as [?|_]; [lia|].
  unfold hex_digits.
  assert (Hlog : Z.log2 n = 24).
  { apply Z.log2_unique; [lia|]. change (2 ^ 24) with 16777216.
    change (2 ^ Z.succ 24) with 33554432. lia. }
  rewrite Hlog. change (S (Z.to_nat (24 / 4))) with 7%nat.
  cbn [seq rev app map string_of_list_ascii slice1].
  unfold colour, hex2. cbn [append].
  change (16 ^ Z.of_nat 5) with 1048576.
  change (16 ^ Z.of_nat 4) with 65536.
  change (16 ^ Z.of_nat 3) with 4096.
  change (16 ^ Z.of_nat 2) with 256.
  change (16 ^ Z.of_nat 1) with 16.
  change (16 ^ Z.of_nat 0) with 1.
  assert (D5 : (n / 1048576) mod 16 = r / 16)
    by (subst n; Z.div_mod_to_equations; lia).
  assert (D4 : (n / 65536) mod 16 = r mod 16)
    by (subst n; Z.div_mod_to_equations; lia).
  assert (D3 : (n / 4096) mod 16 = g / 16)
    by (subst n; Z.div_mod_to_equations; lia).
  assert (D2 : (n / 256) mod 16 = g mod 16)
    by (subst n; Z.div_mod_to_equations; lia).
  assert (D1 : (n / 16) mod 16 = b / 16)
    by (subst n; Z.div_mod_to_equations; lia).
  assert (D0 : (n / 1) mod 16 = b mod 16)
    by (subst n; Z.div_mod_to_equations; lia).
  now rewrite D5, D4, D3, D2, D1, D0.
Qed.

Lemma adjustColorBrightness_channels (hexColor : string) (amount : Z) :
  let num := ToInt32 (parseInt16 (remove_first "#" hexColor)) in
  adjustColorBrightness hexColor amount =
  colour (clamp (js_shr num 16 + amount))
         (clamp (js_and (js_shr num 8) 255 + amount))
         (clamp (js_and num 255 + amount)).
Proof.
  intros num. unfold adjustColorBrightness. fold num.
  apply assemble_colour; apply clamp_range.
Qed.

Lemma channels_of_word (r g b : Z) :
  0 <= r <= 255 -> 0 <= g <= 255 -> 0 <= b <= 255 ->
  let m := r * 65536 + g * 256 + b in
  js_shr m 16 = r /\ js_and (js_shr m 8) 255 = g /\ js_and m 255 = b.
Proof.
  intros Hr Hg Hb m.
  assert (Hm : 0 <= m < 16777216) by (subst m; lia).
  assert (Wm : wrap32 m = m)
    by (apply wrap32_small; change (2 ^ 31) with 2147483648; lia).
  assert (S16 : js_shr m 16 = r).
  { unfold js_shr. rewrite Wm. change (Z.land 16 31) with 16.
    rewrite Z.shiftr_div_pow2 by lia. change (2 ^ 16) with 65536.
    subst m. Z.div_mod_to_equations. lia. }
  assert (S8 : js_shr m 8 = r * 256 + g).
  { unfold js_shr. rewrite Wm. change (Z.land 8 31) with 8.
    rewrite Z.shiftr_div_pow2 by lia. change (2 ^ 8) with 256.
    subst m. Z.div_mod_to_equations. lia. }
  split; [exact S16|]. split.
  - rewrite S8. unfold js_and.
    rewrite !wrap32_small by (change (2 ^ 31) with 2147483648; lia).
    change 255 with (Z.ones 8). rewrite Z.land_ones by lia.
    change (2 ^ 8) with 256. Z.div_mod_to_equations. lia.
  - unfold js_and. rewrite Wm.
    rewrite wrap32_small by (change (2 ^ 31) with 2147483648; lia).
    change 255 with (Z.ones 8). rewrite Z.land_ones by lia.
    change (2 ^ 8) with 256. subst m. Z.div_mod_to_equations. lia.
Qed.

Lemma hex_value_range (c : ascii) (v : Z) :
  hex_value c = Some v -> 0 <= v < 16.
Proof.
  unfold hex_value.
  set (n := Z.of_nat (nat_of_ascii c)).
  destruct ((48 <=? n) && (n <=? 57)) eqn:E1.
  { intros [= <-]. apply andb_true_iff in E1. lia. }
  destruct ((97 <=? n) && (n <=? 102)) eqn:E2.
  { intros [= <-]. apply andb_true_iff in E2. lia. }
  destruct ((65 <=? n) && (n <=? 70)) eqn:E3; [|discriminate].
  intros [= <-]. apply andb_true_iff in E3. lia.
Qed.

Lemma hex_value_plain (c : ascii) (v : Z) :
  hex_value c = Some v ->
  is_space c = false /\
  Ascii.eqb c "-" = false /\ Ascii.eqb c "+" = false /\
  Ascii.eqb c "x" = false /\ Ascii.eqb c "X" = false.
Proof.
  destruct c as [[] [] [] [] [] [] [] []]; vm_compute; intros H;
    try discriminate; repeat split.
Qed.

Lemma hex_value_digit (v : Z) :
  0 <= v < 16 -> hex_value (hex_digit v) = Some v.
Proof.
  intros H.
  assert (C : v = 0 \/ v = 1 \/ v = 2 \/ v = 3 \/ v = 4 \/ v = 5 \/ v = 6 \/
              v = 7 \/ v = 8 \/ v = 9 \/ v = 10 \/ v = 11 \/ v = 12 \/
              v = 13 \/ v = 14 \/ v = 15) by lia.
  repeat (destruct C as [->|C]; [reflexivity|]). subst v. reflexivity.
Qed.

(** What [parseInt] reads from a string that starts with a digit. *)
Lemma parseInt16_digits (c : ascii) (v : Z) (rest : string) (m : Z) :
  hex_value c = Some v ->
  (forall c' rest', rest = String c' rest' ->
                    Ascii.eqb c' "x" = false /\ Ascii.eqb c' "X" = false) ->
  hex_prefix (String c rest) None = Some m ->
  0 <= m < 2 ^ 53 ->
  parseInt16 (String c rest) = JsInt m.
Proof.
  intros Hc Hx Hp Hm. unfold parseInt16.
  destruct (hex_value_plain c v Hc) as [Hs [Hminus [Hplus _]]].
  cbn [trim_start]. rewrite Hs, Hminus, Hplus. cbn [orb].
  assert (E : match rest with
              | String c1 rest' =>
                  if Ascii.eqb c "0" && (Ascii.eqb c1 "x" || Ascii.eqb c1 "X")
                  then rest' else String c rest
              | EmptyString => String c rest
              end = String c rest).
  { destruct rest as [|c1 rest']; [reflexivity|].
    destruct (Hx c1 rest' eq_refl) as [-> ->].
    now rewrite andb_false_r. }
  rewrite E, Hp. unfold round_double.
  rewrite Z.abs_eq by lia.
  destruct (Z.ltb_spec m (2 ^ 53)); [reflexivity|lia].
Qed.

(** X9: whatever colour string and amount it is given,
    [adjustColorBrightness] returns a well-formed colour: a [#]
    followed by exactly six lowercase hexadecimal digits, two for each
    channel value between 0 and 255. *)
Theorem adjustColorBrightness_wellformed (hexColor : string) (amount : Z) :
  exists r g b,
    0 <= r <= 255 /\ 0 <= g <= 255 /\ 0 <= b <= 255 /\
    adjustColorBrightness hexColor amount = colour r g b /\
    String.length (adjustColorBrightness hexColor amount) = 7%nat.
Proof.
  rewrite adjustColorBrightness_channels.
  eexists _, _, _. repeat split; try apply clamp_range; reflexivity.
Qed.

Lemma six_digits_channels
  (c1 c2 c3 c4 c5 c6 : ascii) (v1 v2 v3 v4 v5 v6 : Z) :
  hex_value c1 = Some v1 -> hex_value c2 = Some v2 ->
  hex_value c3 = Some v3 -> hex_value c4 = Some v4 ->
  hex_value c5 = Some v5 -> hex_value c6 = Some v6 ->
  let num := ToInt32 (parseInt16
    (String c1 (String c2 (String c3 (String c4
       (String c5 (String c6 ""))))))) in
  js_shr num 16 = 16 * v1 + v2 /\
  js_and (js_shr num 8) 255 = 16 * v3 + v4 /\
  js_and num 255 = 16 * v5 + v6.
Proof.
  intros H1 H2 H3 H4 H5 H6.
  pose proof (hex_value_range _ _ H1). pose proof (hex_value_range _ _ H2).
  pose proof (hex_value_range _ _ H3). pose proof (hex_value_range _ _ H4).
  pose proof (hex_value_range _ _ H5). pose proof (hex_value_range _ _ H6).
  set (m := (16 * v1 + v2) * 65536 + (16 * v3 + v4) * 256 + (16 * v5 + v6)).
  assert (P : parseInt16 (String c1 (String c2 (String c3 (String c4
                (String c5 (String c6 "")))))) = JsInt m).
  { apply (parseInt16_digits c1 v1); [assumption| | |].
    - intros c' rest' [= <- _].
      now destruct (hex_value_plain c2 v2 H2) as [_ [_ [_ [-> ->]]]].
    - cbn [hex_prefix]. rewrite H1, H2, H3, H4, H5, H6.
      f_equal. subst m. lia.
    - change (2 ^ 53) with 9007199254740992. subst m. lia. }
  rewrite P. cbn [ToInt32]. cbv zeta.
  rewrite wrap32_small
    by (change (2 ^ 31) with 2147483648; subst m; lia).
  subst m.
  apply (channels_of_word (16 * v1 + v2) (16 * v3 + v4) (16 * v5 + v6)); lia.
Qed.

(** X10: on a six-digit colour [#rrggbb], digits in either case, every
    channel is moved by [amount] and kept within 0..255: the result is
    the colour of the three clamped sums. *)
Theorem adjustColorBrightness_six_digits
  (c1 c2 c3 c4 c5 c6 : ascii) (v1 v2 v3 v4 v5 v6 amount : Z) :
  hex_value c1 = Some v1 -> hex_value c2 = Some v2 ->
  hex_value c3 = Some v3 -> hex_value c4 = Some v4 ->
  hex_value c5 = Some v5 -> hex_value c6 = Some v6 ->
  adjustColorBrightness
    (String "#" (String c1 (String c2 (String c3 (String c4
       (String c5 (String c6 ""))))))) amount =
  colour (clamp (16 * v1 + v2 + amount))
         (clamp (16 * v3 + v4 + amount))
         (clamp (16 * v5 + v6 + amount)).
Proof.
  intros H1 H2 H3 H4 H5 H6.
  rewrite adjustColorBrightness_channels.
  cbn [remove_first]. change (Ascii.eqb "#" "#") with true. cbv iota.
  destruct (six_digits_channels c1 c2 c3 c4 c5 c6 v1 v2 v3 v4 v5 v6
              H1 H2 H3 H4 H5 H6) as [E1 [E2 E3]].
  cbv zeta in E1, E2, E3. now rewrite E1, E2, E3.
Qed.

Lemma adjustColorBrightness_six_digits_witness :
  hex_value "0" = Some 0 /\ hex_value "7" = Some 7 /\
  hex_value "A" = Some 10 /\ hex_value "c" = Some 12 /\
  adjustColorBrightness "#007Acc" (-20) = "#0066b8"%string.
Proof.
  do 4 (split; [reflexivity|]).
  exact (adjustColorBrightness_six_digits "0" "0" "7" "A" "c" "c"
           0 0 7 10 12 12 (-20)
           eq_refl eq_refl eq_refl eq_refl eq_refl eq_refl).
Defined.

Lemma adjustColorBrightness_colour (r g b amount : Z) :
  0 <= r <= 255 -> 0 <= g <= 255 -> 0 <= b <= 255 ->
  adjustColorBrightness (colour r g b) amount =
  colour (clamp (r + amount)) (clamp (g + amount)) (clamp (b + amount)).
Proof.
  intros Hr Hg Hb. unfold colour at 1. unfold hex2. cbn [append].
  rewrite adjustColorBrightness_channels. cbn [remove_first].
  change (Ascii.eqb "#" "#") with true. cbv iota.
  destruct (six_digits_channels
              (hex_digit (r / 16)) (hex_digit (r mod 16))
              (hex_digit (g / 16)) (hex_digit (g mod 16))
              (hex_digit (b / 16)) (hex_digit (b mod 16))
              (r / 16) (r mod 16) (g / 16) (g mod 16) (b / 16) (b mod 16))
    as [E1 [E2 E3]];
    try (apply hex_value_digit; Z.div_mod_to_equations; lia).
  cbv zeta in E1, E2, E3. rewrite E1, E2, E3.
  f_equal; f_equal; Z.div_mod_to_equations; lia.
Qed.

(** X11: an amount of zero changes nothing: every colour of six
    lowercase digits comes back as it went in, so printing a colour and
    reading it again loses nothing. *)
Theorem adjustColorBrightness_zero (r g b : Z) :
  0 <= r <= 255 -> 0 <= g <= 255 -> 0 <= b <= 255 ->
  adjustColorBrightness (colour r g b) 0 = colour r g b.
Proof.
  intros Hr Hg Hb. rewrite adjustColorBrightness_colour by assumption.
  unfold clamp. f_equal; lia.
Qed.

Lemma adjustColorBrightness_zero_witness :
  adjustColorBrightness "#007acc" 0 = "#007acc"%string.
Proof.
  exact (adjustColorBrightness_zero 0 122 204
           ltac:(lia) ltac:(lia) ltac:(lia)).
Defined.

(** X12: two adjustments in the same direction amount to one: changing
    a six-digit colour by [a] and the result by [b] gives the same
    colour as changing it by [a + b], when [a] and [b] are both
    non-negative or both non-positive. *)
Theorem adjustColorBrightness_twice (r g b amount amount' : Z) :
  0 <= r <= 255 -> 0 <= g <= 255 -> 0 <= b <= 255 ->
  (0 <= amount /\ 0 <= amount') \/ (amount <= 0 /\ amount' <= 0) ->
  adjustColorBrightness (adjustColorBrightness (colour r g b) amount) amount' =
  adjustColorBrightness (colour r g b) (amount + amount').
Proof.
  intros Hr Hg Hb Hs.
  rewrite (adjustColorBrightness_colour r g b amount) by assumption.
  rewrite adjustColorBrightness_colour by apply clamp_range.
  rewrite adjustColorBrightness_colour by assumption.
  unfold clamp. f_equal; lia.
Qed.

Lemma adjustColorBrightness_twice_witness :
  adjustColorBrightness (adjustColorBrightness (colour 0 122 204) 20) 20 =
  adjustColorBrightness (colour 0 122 204) 40.
Proof.
  exact (adjustColorBrightness_twice 0 122 204 20 20
           ltac:(lia) ltac:(lia) ltac:(lia) ltac:(left; lia)).
Defined.

(** X13: large amounts saturate: on a six-digit colour an amount of 255
    or more always gives white, and an amount of -255 or less always
    gives black. *)
Theorem adjustColorBrightness_saturates (r g b amount : Z) :
  0 <= r <= 255 -> 0 <= g <= 255 -> 0 <= b <= 255 ->
  (255 <= amount ->
   adjustColorBrightness (colour r g b) amount = "#ffffff"%string) /\
  (amount <= -255 ->
   adjustColorBrightness (colour r g b) amount = "#000000"%string).
Proof.
  intros Hr Hg Hb. rewrite adjustColorBrightness_colour by assumption.
  unfold clamp. split; intros Ha.
  - replace (Z.min 255 (Z.max 0 (r + amount))) with 255 by lia.
    replace (Z.min 255 (Z.max 0 (g + amount))) with 255 by lia.
    replace (Z.min 255 (Z.max 0 (b + amount))) with 255 by lia.
    reflexivity.
  - replace (Z.min 255 (Z.max 0 (r + amount))) with 0 by lia.
    replace (Z.min 255 (Z.max 0 (g + amount))) with 0 by lia.
    replace (Z.min 255 (Z.max 0 (b + amount))) with 0 by lia.
    reflexivity.
Qed.

Lemma adjustColorBrightness_saturates_witness :
  adjustColorBrightness "#007acc" 300 = "#ffffff"%string /\
  adjustColorBrightness "#007acc" (-255) = "#000000"%string.
Proof.
  split.
  - exact (proj1 (adjustColorBrightness_saturates 0 122 204 300
                    ltac:(lia) ltac:(lia) ltac:(lia)) ltac:(lia)).
  - exact (proj2 (adjustColorBrightness_saturates 0 122 204 (-255)
                    ltac:(lia) ltac:(lia) ltac:(lia)) ltac:(lia)).
Defined.

(** X14: a colour string in which [parseInt] finds no hexadecimal
    number (a colour name such as [red], the empty string, a string
    with a second [#]) is treated as black: the result is the grey
    whose three channels are the clamped amount. *)
Theorem adjustColorBrightness_unparsable (hexColor : string) (amount : Z) :
  parseInt16 (remove_first "#" hexColor) = JsNaN ->
  adjustColorBrightness hexColor amount =
  colour (clamp amount) (clamp amount) (clamp amount).
Proof.
  intros H. rewrite adjustColorBrightness_channels, H. reflexivity.
Qed.

Lemma adjustColorBrightness_unparsable_witness :
  parseInt16 (remove_first "#" "red") = JsNaN /\
  parseInt16 (remove_first "#" "##ffffff") = JsNaN /\
  adjustColorBrightness "red" 20 = "#141414"%string /\
  adjustColorBrightness "##ffffff" 20 = "#141414"%string.
Proof.
  do 2 (split; [reflexivity|]). split.
  - exact (adjustColorBrightness_unparsable "red" 20 eq_refl).
  - exact (adjustColorBrightness_unparsable "##ffffff" 20 eq_refl).
Defined.

(** X15: the three-digit shorthand is not expanded: [#abc] is read as
    the number [0xabc], that is as the colour [#000abc], so its first
    digit lands in the green channel, its last two in the blue channel,
    and the red channel is empty. *)
Theorem adjustColorBrightness_shorthand
  (c1 c2 c3 : ascii) (v1 v2 v3 amount : Z) :
  hex_value c1 = Some v1 -> hex_value c2 = Some v2 ->
  hex_value c3 = Some v3 ->
  adjustColorBrightness (String "#" (String c1 (String c2 (String c3 ""))))
    amount =
  colour (clamp amount) (clamp (v1 + amount)) (clamp (16 * v2 + v3 + amount)).
Proof.
  intros H1 H2 H3.
  pose proof (hex_value_range _ _ H1). pose proof (hex_value_range _ _ H2).
  pose proof (hex_value_range _ _ H3).
  rewrite adjustColorBrightness_channels.
  cbn [remove_first]. change (Ascii.eqb "#" "#") with true. cbv iota.
  assert (P : parseInt16 (String c1 (String c2 (String c3 ""))) =
              JsInt (0 * 65536 + v1 * 256 + (16 * v2 + v3))).
  { apply (parseInt16_digits c1 v1); [assumption| | |].
    - intros c' rest' [= <- _].
      now destruct (hex_value_plain c2 v2 H2) as [_ [_ [_ [-> ->]]]].
    - cbn [hex_prefix]. rewrite H1, H2, H3. f_equal. lia.
    - change (2 ^ 53) with 9007199254740992. lia. }
  rewrite P. cbn [ToInt32].
  rewrite wrap32_small by (change (2 ^ 31) with 2147483648; lia).
  destruct (channels_of_word 0 v1 (16 * v2 + v3)) as [-> [-> ->]]; try lia.
  reflexivity.
Qed.

Lemma adjustColorBrightness_shorthand_witness :
  hex_value "f" = Some 15 /\
  adjustColorBrightness "#fff" 0 = "#000fff"%string.
Proof.
  split; [reflexivity|].
  exact (adjustColorBrightness_shorthand "f" "f" "f" 15 15 15 0
           eq_refl eq_refl eq_refl).
Defined.

Local Close Scope Z_scope.

(** * The background worker *)

Lemma getExtensionDownloadUrl_normal
  (fetch : Request -> FetchResult) (extensionId : string)
  (versionArg : option string) :
  exists resolved log,
    getExtensionDownloadUrl fetch extensionId versionArg =
    (Normal resolved, log).
Proof.
  destruct (getExtensionDownloadUrl_run fetch extensionId versionArg)
    as [x [log [more [_ [H _]]]]].
  rewrite H. eexists _, _. reflexivity.
Qed.

Lemma responses_in_app (t u : list BgEvent) :
  responses_in (t ++ u) = responses_in t ++ responses_in u.
Proof.
  induction t as [|[e|o|r|l x] t IH]; simpl; try assumption; try reflexivity.
  now rewrite IH.
Qed.

Lemma downloads_in_app (t u : list BgEvent) :
  downloads_in (t ++ u) = downloads_in t ++ downloads_in u.
Proof.
  induction t as [|[e|o|r|l x] t IH]; simpl; try assumption; try reflexivity.
  now rewrite IH.
Qed.

Lemma client_events_in_app (t u : list BgEvent) :
  client_events_in (t ++ u) = client_events_in t ++ client_events_in u.
Proof.
  induction t as [|[e|o|r|l x] t IH]; simpl; try assumption; try reflexivity.
  now rewrite IH.
Qed.

Lemma client_log (log : list Event) :
  responses_in (map BgClient log) = [] /\
  downloads_in (map BgClient log) = [] /\
  client_events_in (map BgClient log) = log.
Proof.
  induction log as [|e log [IH1 [IH2 IH3]]]; simpl; [repeat split|].
  rewrite IH3. repeat split; assumption.
Qed.

(** A run of the worker on a download request, laid out: the events of
    the resolution, then the download when a descriptor was resolved,
    then possibly a console error, and last the one reply. *)
Lemma handleMessage_run
  (fetch : Request -> FetchResult)
  (download : DownloadOptions -> DownloadResult)
  (request : DownloadRequest) :
  msg_type request = "DOWNLOAD_EXTENSION" ->
  exists resolved log notes,
    getExtensionDownloadUrl fetch (msg_extensionId request) None =
      (Normal resolved, log) /\
    handleMessage fetch download request =
      (Fulfilled tt,
       map BgClient log ++
       match resolved with
       | Some d => [BgDownload (download_options d)]
       | None => []
       end ++ notes ++ [BgRespond (reply resolved download)]) /\
    responses_in notes = [] /\ downloads_in notes = [] /\
    client_events_in notes = [].
Proof.
  intros Ht. unfold handleMessage. rewrite Ht. simpl String.eqb. cbv iota.
  destruct (getExtensionDownloadUrl_normal fetch (msg_extensionId request) None)
    as [resolved [log H]].
  exists resolved, log. cbv zeta. rewrite H.
  unfold bg_await, bg_bind, bg_try, reply.
  destruct resolved as [d|]; simpl.
  - unfold chrome_downloads_download. fold (download_options d).
    destruct (download (download_options d)) as [[message|]|id]; simpl.
    + exists [BgConsoleError "Error handling download request:"
                (RejectError message)].
      split; [reflexivity|].
      split; [|repeat split]. f_equal. now rewrite <- ?app_assoc.
    + exists [BgConsoleError "Error handling download request:" RejectOther].
      split; [reflexivity|].
      split; [|repeat split]. f_equal. now rewrite <- ?app_assoc.
    + exists []. split; [reflexivity|].
      split; [|repeat split].
      destruct (truthy_id id); simpl; f_equal; now rewrite <- ?app_assoc.
  - exists []. split; [reflexivity|]. split; [|repeat split].
    simpl. reflexivity.
Qed.

(** X16: the worker answers every download request exactly once, as
    the last thing it does, and never lets a failure escape, whatever
    the network and the download service do; a message of any other
    type is ignored: no reply, no request, no download. *)
Theorem handleMessage_replies_once
  (fetch : Request -> FetchResult)
  (download : DownloadOptions -> DownloadResult)
  (request : DownloadRequest) :
  fst (handleMessage fetch download request) = Fulfilled tt /\
  (msg_type request = "DOWNLOAD_EXTENSION" ->
   exists before response,
     snd (handleMessage fetch download request) =
       before ++ [BgRespond response] /\
     responses_in before = []) /\
  (msg_type request <> "DOWNLOAD_EXTENSION" ->
   snd (handleMessage fetch download request) = []).
Proof.
  destruct (String.eqb_spec (msg_type request) "DOWNLOAD_EXTENSION") as [E|E].
  - destruct (handleMessage_run fetch download request E)
      as [resolved [log [notes [_ [H [Hn _]]]]]].
    rewrite H. split; [reflexivity|]. split; [|contradiction].
    intros _. eexists _, _. split.
    + rewrite !app_assoc. reflexivity.
    + rewrite !responses_in_app, Hn, (proj1 (client_log log)).
      now destruct resolved.
  - unfold handleMessage. apply String.eqb_neq in E. rewrite E.
    split; [reflexivity|]. split; [|reflexivity].
    intros H. apply String.eqb_neq in E. contradiction.
Qed.

Lemma handleMessage_replies_once_witness :
  exists before response,
    snd (handleMessage offline accepting
           {| msg_type := "DOWNLOAD_EXTENSION";
              msg_extensionId := "publisher.name" |}) =
      before ++ [BgRespond response] /\
    responses_in before = [].
Proof.
  exact (proj1 (proj2 (handleMessage_replies_once offline accepting
           {| msg_type := "DOWNLOAD_EXTENSION";
              msg_extensionId := "publisher.name" |})) eq_refl).
Defined.

Lemma handleMessage_responses
  (fetch : Request -> FetchResult)
  (download : DownloadOptions -> DownloadResult)
  (request : DownloadRequest) :
  msg_type request = "DOWNLOAD_EXTENSION" ->
  exists resolved,
    outcome (getExtensionDownloadUrl fetch (msg_extensionId request) None) =
      Normal resolved /\
    responses_in (snd (handleMessage fetch download request)) =
      [reply resolved download] /\
    downloads_in (snd (handleMessage fetch download request)) =
      match resolved with
      | Some d => [download_options d]
      | None => []
      end /\
    client_events_in (snd (handleMessage fetch download request)) =
      events (getExtensionDownloadUrl fetch (msg_extensionId request) None).
Proof.
  intros Ht.
  destruct (handleMessage_run fetch download request Ht)
    as [resolved [log [notes [Hg [H [Hr [Hd Hc]]]]]]].
  exists resolved. rewrite H, Hg. unfold outcome, events. simpl.
  destruct (client_log log) as [L1 [L2 L3]].
  rewrite !responses_in_app, !downloads_in_app, !client_events_in_app.
  rewrite L1, L2, L3, Hr, Hd, Hc.
  destruct resolved; simpl; rewrite ?app_nil_r; repeat split.
Qed.

(** X17: the worker reports success, with a file name, exactly when a
    descriptor was resolved for the latest version and the download
    service, called with the descriptor's address and file name,
    [saveAs] set and [conflictAction] [uniquify], returned a non-zero
    download id; the file name reported is the descriptor's.  A
    download id of zero or [undefined] is reported as a failure. *)
Theorem handleMessage_success_iff
  (fetch : Request -> FetchResult)
  (download : DownloadOptions -> DownloadResult)
  (request : DownloadRequest) (name : string) :
  msg_type request = "DOWNLOAD_EXTENSION" ->
  (responses_in (snd (handleMessage fetch download request)) =
     [{| success := true; resp_fileName := Some name; error := None |}] <->
   exists d id,
     outcome (getExtensionDownloadUrl fetch (msg_extensionId request) None) =
       Normal (Some d) /\
     fileName d = name /\
     download {| opt_url := downloadUrl d; opt_filename := fileName d;
                 saveAs := true; conflictAction := "uniquify" |} =
       DownloadId (Some id) /\
     id <> 0%Z).
Proof.
  intros Ht.
  destruct (handleMessage_responses fetch download request Ht)
    as [resolved [Ho [Hr _]]].
  rewrite Hr, Ho. unfold reply, failure. fold download_options. split.
  - destruct resolved as [d|]; [|discriminate].
    fold (download_options d).
    destruct (download (download_options d)) as [[m|]|[id|]] eqn:E;
      try discriminate.
    simpl. destruct (Z.eqb_spec id 0) as [Z0|Z0]; simpl; [discriminate|].
    intros [= <-]. exists d, id. repeat split; assumption.
  - intros [d [id [[= ->] [<- [Hd Hid]]]]].
    fold (download_options d) in Hd. rewrite Hd. simpl.
    destruct (Z.eqb_spec id 0); [contradiction|reflexivity].
Qed.

Lemma handleMessage_success_iff_witness :
  responses_in
    (snd (handleMessage (serving acme_tool) accepting
            {| msg_type := "DOWNLOAD_EXTENSION";
               msg_extensionId := "acme.tool" |})) =
    [{| success := true; resp_fileName := Some "acme.tool-1.2.3.vsix";
        error := None |}] /\
  responses_in
    (snd (handleMessage (serving acme_tool) zero_id
            {| msg_type := "DOWNLOAD_EXTENSION";
               msg_extensionId := "acme.tool" |})) <>
    [{| success := true; resp_fileName := Some "acme.tool-1.2.3.vsix";
        error := None |}].
Proof.
  split.
  - apply (proj2 (handleMessage_success_iff (serving acme_tool) accepting
             {| msg_type := "DOWNLOAD_EXTENSION";
                msg_extensionId := "acme.tool" |}
             "acme.tool-1.2.3.vsix" eq_refl)).
    eexists _, 1%Z. repeat split. discriminate.
  - intros H.
    apply (proj1 (handleMessage_success_iff (serving acme_tool) zero_id
             {| msg_type := "DOWNLOAD_EXTENSION";
                msg_extensionId := "acme.tool" |}
             "acme.tool-1.2.3.vsix" eq_refl)) in H.
    destruct H as [d [id [_ [_ [Hd Hid]]]]].
    injection Hd as <-. now apply Hid.
Defined.

(** X18: the worker starts at most one download, and only for a
    descriptor it resolved: none when resolution fails.  On the network
    it sends nothing but the requests of the resolution, that is the
    one marketplace query, or nothing for a malformed identifier; it
    never fetches the package itself. *)
Theorem handleMessage_effects
  (fetch : Request -> FetchResult)
  (download : DownloadOptions -> DownloadResult)
  (request : DownloadRequest) :
  msg_type request = "DOWNLOAD_EXTENSION" ->
  downloads_in (snd (handleMessage fetch download request)) =
    match outcome (getExtensionDownloadUrl fetch (msg_extensionId request)
                     None) with
    | Normal (Some d) =>
        [{| opt_url := downloadUrl d; opt_filename := fileName d;
            saveAs := true; conflictAction := "uniquify" |}]
    | _ => []
    end /\
  requests_in (client_events_in (snd (handleMessage fetch download request))) =
    if malformed_components (msg_extensionId request) then []
    else [marketplace_query (msg_extensionId request)].
Proof.
  intros Ht.
  destruct (handleMessage_responses fetch download request Ht)
    as [resolved [Ho [_ [Hd Hc]]]].
  rewrite Hd, Hc, Ho. split; [now destruct resolved|].
  fold (requests (getExtensionDownloadUrl fetch (msg_extensionId request) None)).
  rewrite getExtensionDownloadUrl_requests.
  apply fetchExtensionInfo_requests.
Qed.

Lemma handleMessage_effects_witness :
  downloads_in
    (snd (handleMessage offline accepting
            {| msg_type := "DOWNLOAD_EXTENSION";
               msg_extensionId := "publisher.name" |})) = [] /\
  requests_in (client_events_in
    (snd (handleMessage offline accepting
            {| msg_type := "DOWNLOAD_EXTENSION";
               msg_extensionId := "publisher.name" |}))) =
    [marketplace_query "publisher.name"].
Proof.
  exact (handleMessage_effects offline accepting
           {| msg_type := "DOWNLOAD_EXTENSION";
              msg_extensionId := "publisher.name" |} eq_refl).
Defined.

(** X19: the worker always downloads the latest version: a reply that
    reports success names the file
    [publisher.name-version.vsix] built from the fetched record and the
    version string of the first entry of its versions. *)
Theorem handleMessage_latest_version
  (fetch : Request -> FetchResult)
  (download : DownloadOptions -> DownloadResult)
  (request : DownloadRequest) (name : string) :
  msg_type request = "DOWNLOAD_EXTENSION" ->
  responses_in (snd (handleMessage fetch download request)) =
    [{| success := true; resp_fileName := Some name; error := None |}] ->
  exists e latest older,
    outcome (fetchExtensionInfo fetch (msg_extensionId request)) =
      Normal (Some e) /\
    versions e = Some (latest :: older) /\
    name = (publisherName (publisher e) ++ "." ++ extensionName e ++ "-" ++
            version latest ++ ".vsix")%string.
Proof.
  intros Ht H.
  destruct (handleMessage_responses fetch download request Ht)
    as [resolved [Ho [Hr _]]].
  rewrite Hr in H. unfold reply, failure in H.
  destruct resolved as [d|]; [|discriminate].
  assert (Hn : fileName d = name).
  { destruct (download (download_options d)) as [[m|]|id];
      try discriminate.
    destruct (truthy_id id); [|discriminate]. now injection H. }
  subst name. clear H Hr.
  pose proof (fetchExtensionInfo_outcome fetch (msg_extensionId request)) as Hf.
  rewrite (getExtensionDownloadUrl_outcome fetch _ _ _ Hf) in Ho.
  injection Ho as Ho.
  destruct (if malformed_components _ then None else _) as [e|];
    simpl in Ho; [|discriminate].
  destruct (versions e) as [[|latest older]|] eqn:Hv; try discriminate.
  unfold select in Ho. simpl in Ho.
  destruct (package_of latest) as [f|]; simpl in Ho; [|discriminate].
  injection Ho as <-.
  exists e, latest, older. repeat split; assumption.
Qed.

Lemma handleMessage_latest_version_witness :
  exists e latest older,
    outcome (fetchExtensionInfo (serving two_versions) "publisher.name") =
      Normal (Some e) /\
    versions e = Some (latest :: older) /\
    "publisher.name-2.0.0.vsix"%string =
      (publisherName (publisher e) ++ "." ++ extensionName e ++ "-" ++
       version latest ++ ".vsix")%string.
Proof.
  exact (handleMessage_latest_version (serving two_versions) accepting
           {| msg_type := "DOWNLOAD_EXTENSION";
              msg_extensionId := "publisher.name" |}
           "publisher.name-2.0.0.vsix" eq_refl eq_refl).
Defined.

(** X20: every reply of the worker is well-formed for its readers: a
    success carries a file name and no error, a failure carries an
    error message and no file name. *)
Theorem handleMessage_reply_shape
  (fetch : Request -> FetchResult)
  (download : DownloadOptions -> DownloadResult)
  (request : DownloadRequest) (response : DownloadResponse) :
  In response (responses_in (snd (handleMessage fetch download request))) ->
  (success response = true /\
   (exists name, resp_fileName response = Some name) /\
   error response = None) \/
  (success response = false /\
   resp_fileName response = None /\
   exists message, error response = Some message).
Proof.
  destruct (String.eqb_spec (msg_type request) "DOWNLOAD_EXTENSION") as [E|E].
  - destruct (handleMessage_responses fetch download request E)
      as [resolved [_ [Hr _]]].
    rewrite Hr. intros [<-|[]]. unfold reply, failure.
    destruct resolved as [d|]; [|right; repeat split; eexists; reflexivity].
    destruct (download (download_options d)) as [[m|]|id];
      try (right; repeat split; eexists; reflexivity).
    destruct (truthy_id id); [left|right];
      repeat split; eexists; reflexivity.
  - unfold handleMessage. apply String.eqb_neq in E. rewrite E.
    intros [].
Qed.

Lemma handleMessage_reply_shape_witness :
  In (failure "Invalid URL")
     (responses_in
        (snd (handleMessage (serving two_versions) refusing
                {| msg_type := "DOWNLOAD_EXTENSION";
                   msg_extensionId := "publisher.name" |}))) /\
  ((success (failure "Invalid URL") = true /\
    (exists name, resp_fileName (failure "Invalid URL") = Some name) /\
    error (failure "Invalid URL") = None) \/
   (success (failure "Invalid URL") = false /\
    resp_fileName (failure "Invalid URL") = None /\
    exists message, error (failure "Invalid URL") = Some message)).
Proof.
  split; [now left|].
  apply (handleMessage_reply_shape (serving two_versions) refusing
           {| msg_type := "DOWNLOAD_EXTENSION";
              msg_extensionId := "publisher.name" |}).
  now left.
Defined.

(** * The click handler of the content script *)

(** A run of the click handler, laid out: whatever the store and the
    worker answer, the page ends as [showLoading], one [showStatus] and
    [hideLoading] leave it. *)
Lemma handleDownloadClick_run
  (storage : string -> StorageResult)
  (sendMessage : DownloadRequest -> SendResult) (page : Page) :
  exists message type t,
    handleDownloadClick storage sendMessage page =
    (Fulfilled tt,
     hideLoading (showStatus message type
       (showLoading (Some "Fetching extension info...") page)),
     UiStorageGet STORAGE_KEY :: t) /\
    ((type = "error" /\ message = "Failed to start download" /\
      (exists reason,
         storage STORAGE_KEY = StorageRejected reason /\ messages_in t = [])) \/
     (type = "error" /\ message = "Extension ID not found" /\
      (exists v, storage STORAGE_KEY = StorageValue v /\ falsy v = true) /\
      t = []) \/
     (exists id,
        storage STORAGE_KEY = StorageValue (Some id) /\ id <> "" /\
        messages_in t =
          [{| msg_type := "DOWNLOAD_EXTENSION"; msg_extensionId := id |}] /\
        match sendMessage {| msg_type := "DOWNLOAD_EXTENSION";
                             msg_extensionId := id |} with
        | SendRejected _ | SendReply None =>
            type = "error" /\ message = "Failed to start download"
        | SendReply (Some response) =>
            if success response
            then type = "success" /\
                 message = ("Download started: " ++
                            template (resp_fileName response))%string
            else type = "error" /\
                 message = ("Error: " ++ template (error response))%string
        end)).
Proof.
  unfold handleDownloadClick, ui_try, ui_bind, ui_do, ui_ret, ui_throw,
    ui_console_error, chrome_storage_local_get, chrome_runtime_sendMessage.
  destruct (storage STORAGE_KEY) as [reason|v] eqn:Es.
  - eexists _, _, _. split; [reflexivity|].
    left. repeat split. now exists reason.
  - destruct (falsy v) eqn:Ev.
    + eexists _, _, _. split; [reflexivity|].
      right; left. repeat split. now exists v.
    + apply falsy_false in Ev. destruct Ev as [id [-> Hid]].
      destruct (sendMessage _) as [reason|[response|]] eqn:Em.
      * eexists _, _, _. split; [reflexivity|].
        right; right. exists id. rewrite Em. repeat split; assumption.
      * destruct (success response) eqn:Er.
        -- eexists _, _, _. split; [reflexivity|].
           right; right. exists id. rewrite Em, Er. repeat split; assumption.
        -- eexists _, _, _. split; [reflexivity|].
           right; right. exists id. rewrite Em, Er. repeat split; assumption.
      * eexists _, _, _. split; [reflexivity|].
        right; right. exists id. rewrite Em. repeat split; assumption.
Qed.

(** X21: a click never leaves the page stuck.  Whatever the store and
    the worker do, the handler completes without an escaping failure,
    and of the elements that are on the page the button is enabled
    again, the loading line is hidden and the status line is shown with
    the class [success] or [error]; an element that is missing stays
    missing. *)
Theorem handleDownloadClick_settles
  (storage : string -> StorageResult)
  (sendMessage : DownloadRequest -> SendResult) (page : Page) :
  exists after t,
    handleDownloadClick storage sendMessage page = (Fulfilled tt, after, t) /\
    button after = option_map (fun _ => {| disabled := false |}) (button page) /\
    loading after =
      option_map (fun _ => {| loading_display := "none";
                              loading_textContent :=
                                "Fetching extension info..." |})
                 (loading page) /\
    match status page, status after with
    | Some _, Some s =>
        status_display s = "block" /\
        (status_className s = "success" \/ status_className s = "error")
    | None, None => True
    | _, _ => False
    end.
Proof.
  destruct (handleDownloadClick_run storage sendMessage page)
    as [message [type [t [H Hcases]]]].
  eexists _, _. split; [exact H|].
  assert (Ht : type = "success" \/ type = "error").
  { destruct Hcases as [[-> _]|[[-> _]|[id [_ [_ [_ Hm]]]]]]; auto.
    destruct (sendMessage _) as [r|[response|]]; try (right; apply Hm).
    destruct (success response); [left|right]; apply Hm. }
  destruct page as [[l|] [s|] [b|]]; simpl; repeat split; assumption.
Qed.

(** X22: the handler sends at most one message, and only for a stored
    identifier: when the store fails or holds no identifier (nothing,
    or the empty string) no message is sent and the status reads
    [Failed to start download] or [Extension ID not found]; otherwise
    the one message is a [DOWNLOAD_EXTENSION] request carrying the
    stored identifier unchanged. *)
Theorem handleDownloadClick_messages
  (storage : string -> StorageResult)
  (sendMessage : DownloadRequest -> SendResult) (page : Page) :
  messages_in (snd (handleDownloadClick storage sendMessage page)) =
  match storage "vscode-downloader-extension-id" with
  | StorageValue (Some id) =>
      if String.eqb id "" then []
      else [{| msg_type := "DOWNLOAD_EXTENSION"; msg_extensionId := id |}]
  | _ => []
  end.
Proof.
  destruct (handleDownloadClick_run storage sendMessage page)
    as [message [type [t [H Hcases]]]].
  rewrite H. simpl. fold STORAGE_KEY.
  destruct Hcases as [[_ [_ [reason [-> Hm]]]]|
                      [[_ [_ [[v [-> Hv]] ->]]]|[id [-> [Hid [Hm _]]]]]].
  - exact Hm.
  - destruct v as [id|]; [|reflexivity]. simpl in Hv. now rewrite Hv.
  - apply String.eqb_neq in Hid. now rewrite Hid.
Qed.

(** X23: the status shows success exactly when an identifier was
    stored and the worker's reply has [success] set; it then reads
    [Download started: ] followed by the file name of the reply. *)
Theorem handleDownloadClick_success_iff
  (storage : string -> StorageResult)
  (sendMessage : DownloadRequest -> SendResult)
  (page : Page) (shown : StatusEl) :
  status page <> None ->
  (status (snd (fst (handleDownloadClick storage sendMessage page))) =
     Some shown /\ status_className shown = "success" <->
   exists id response,
     storage "vscode-downloader-extension-id" = StorageValue (Some id) /\
     id <> "" /\
     sendMessage {| msg_type := "DOWNLOAD_EXTENSION";
                    msg_extensionId := id |} = SendReply (Some response) /\
     success response = true /\
     shown = {| status_display := "block";
                status_textContent :=
                  "Download started: " ++ template (resp_fileName response);
                status_className := "success" |}).
Proof.
  intros Hpage.
  destruct (handleDownloadClick_run storage sendMessage page)
    as [message [type [t [H Hcases]]]].
  rewrite H. simpl. fold STORAGE_KEY.
  destruct (status page) as [s|]; [|contradiction]. simpl. split.
  - intros [[= <-] Hc]. simpl in Hc. subst type.
    destruct Hcases as [[? _]|[[? _]|[id [Hs [Hid [_ Hm]]]]]];
      try discriminate.
    destruct (sendMessage _) as [r|[response|]] eqn:Em;
      try (destruct Hm; discriminate).
    destruct (success response) eqn:Er; [|destruct Hm; discriminate].
    destruct Hm as [_ ->]. exists id, response. repeat split; assumption.
  - intros [id [response [Hs [Hid [Hm [Hr ->]]]]]].
    destruct Hcases as [[_ [_ [reason [Hs' _]]]]|
                        [[_ [_ [[v [Hs' Hv]] _]]]|[id' [Hs' [_ [_ Hm']]]]]].
    + congruence.
    + rewrite Hs in Hs'. injection Hs' as <-. simpl in Hv.
      apply String.eqb_eq in Hv. contradiction.
    + rewrite Hs in Hs'. injection Hs' as <-.
      rewrite Hm, Hr in Hm'. destruct Hm' as [-> ->]. split; reflexivity.
Qed.

Lemma handleDownloadClick_success_iff_witness :
  status injected_page <> None /\
  status (snd (fst (handleDownloadClick (holding "acme.tool")
                      (channel (serving acme_tool) accepting)
                      injected_page))) =
    Some {| status_display := "block";
            status_textContent := "Download started: acme.tool-1.2.3.vsix";
            status_className := "success" |}.
Proof.
  split; [discriminate|].
  apply (proj2 (handleDownloadClick_success_iff (holding "acme.tool")
           (channel (serving acme_tool) accepting) injected_page
           {| status_display := "block";
              status_textContent := "Download started: acme.tool-1.2.3.vsix";
              status_className := "success" |}
           ltac:(discriminate))).
  exists "acme.tool",
    {| success := true; resp_fileName := Some "acme.tool-1.2.3.vsix";
       error := None |}.
  repeat split. discriminate.
Defined.



(** * Statistics in the popup *)




Lemma find_app_some {A} (p : A -> bool) (l extra : list A) (x : A) :
  List.find p l = Some x -> List.find p (l ++ extra) = Some x.
Proof.
  induction l as [|y l IH]; simpl; [discriminate|].
  destruct (p y); [trivial|exact IH].
Qed.


(** X26: [formatDownloadCount] shows [N/A] when the statistics hold no
    [install] entry, and otherwise formats the first such entry only:
    statistics listed after it have no influence on what is shown. *)
Theorem formatDownloadCount_first_install
  (number : Type) (ge : number -> number -> bool)
  (divide : number -> number -> number)
  (toFixed1 toString : number -> string) (literal : Z -> number)
  (statistics : list (ExtensionStatistic number)) :
  ((forall s, In s statistics -> statisticName s <> "install") ->
   formatDownloadCount number ge divide toFixed1 toString literal statistics =
   "N/A") /\
  ((exists s, In s statistics /\ statisticName s = "install") ->
   forall more,
     formatDownloadCount number ge divide toFixed1 toString literal
       (statistics ++ more) =
     formatDownloadCount number ge divide toFixed1 toString literal
       statistics).
Proof.
  unfold formatDownloadCount, array_find. split.
  - intros H.
    apply (find_none_iff
             (fun s : ExtensionStatistic number =>
                String.eqb (statisticName s) "install")
             (fun s => statisticName s = "install")) in H;
      [|intros y; apply String.eqb_eq].
    now rewrite H.
  - intros [s [Hin Hs]] more.
    destruct (List.find (fun s : ExtensionStatistic number =>
                String.eqb (statisticName s) "install") statistics)
      as [first|] eqn:Ef.
    + now rewrite (find_app_some _ _ more _ Ef).
    + exfalso.
      apply (find_none_iff _ (fun s => statisticName s = "install"))
        with (x := s) in Ef;
        [contradiction|intros y; apply String.eqb_eq|assumption].
Qed.


Lemma formatDownloadCount_first_install_witness :
  formatDownloadCount Z Z.geb Z.div (fun _ => "1.2") (fun _ => "950")
    (fun z => z)
    [{| statisticName := "ratingcount"; stat_value := 12%Z |}] = "N/A".
Proof.
  apply (proj1 (formatDownloadCount_first_install Z Z.geb Z.div
                  (fun _ => "1.2") (fun _ => "950") (fun z => z) _)).
  simpl. intros s [<-|[]]; discriminate.
Defined.
